(** * gh secret list: a shallow embedding of pkg/cmd/secret/list/list.go

    The command resolves a scope (repository or organization), issues one
    REST request for it, and hands one row per secret to a table printer.
    The Go code is embedded as Rocq functions over byte strings.  Calls to
    collaborators (HTTP client factory, repository accessor, REST helper,
    table renderer) are recorded in a trace, and a function body either
    falls through to its next statement, returns early, or panics. *)

From Stdlib Require Import String Ascii List ZArith NArith Bool Lia.
Import ListNotations.
Open Scope string_scope.

(** ** Go's error values *)

(** An error is either a leaf produced by a collaborator or the wrapper
    that [fmt.Errorf] builds for the [%w] verb. *)
Inductive error : Type :=
| errorString (s : string)
| wrapError (msg : string) (err : error).

(** The [Error()] method. *)
Definition Error (e : error) : string :=
  match e with
  | errorString s => s
  | wrapError msg _ => msg
  end.

(** [errors.Unwrap]. *)
Definition Unwrap (e : error) : option error :=
  match e with
  | errorString _ => None
  | wrapError _ err => Some err
  end.

(** A Go pair [(value, err)] in which exactly one side is meaningful. *)
Inductive result (A : Type) : Type :=
| Ok (a : A)
| Err (err : error).
Arguments Ok {A} a.
Arguments Err {A} err.

(** ** Package fmt: the verbs this command uses *)
Module fmt.

(** Expansion of a format string.  Only [%s] and [%w] are modelled, both
    applied to a string operand; every other byte is copied. *)
Fixpoint expand (format : string) (args : list string) : string :=
  match format with
  | EmptyString => EmptyString
  | String c rest =>
    match rest with
    | String v rest' =>
      if (Ascii.eqb c "%" && (Ascii.eqb v "s" || Ascii.eqb v "w"))%bool
      then match args with
           | a :: args' => a ++ expand rest' args'
           | [] => "%!" ++ String v "(MISSING)" ++ expand rest' []
           end
      else String c (expand rest args)
    | EmptyString => String c EmptyString
    end
  end.

Definition Sprintf (format : string) (args : list string) : string :=
  expand format args.

(** [fmt.Errorf(format, err)] with one [%w] operand. *)
Definition Errorf (format : string) (err : error) : error :=
  wrapError (expand format [Error err]) err.

End fmt.

(** What the embedding takes from outside the package: the host that
    [ghinstance.OverridableDefault()] reports for this invocation, and
    [strings.Map(unicode.ToUpper, s)], which depends on the Unicode case
    tables and is only reached for strings with a byte above 0x7f. *)
Class Platform : Type := {
  OverridableDefault : string;
  mapUnicodeToUpper : string -> string
}.

(** ** Package strings *)
Module strings.

Definition isLower (c : ascii) : bool :=
  ((97 <=? nat_of_ascii c) && (nat_of_ascii c <=? 122))%nat.

Definition upperByte (c : ascii) : ascii :=
  if isLower c then ascii_of_nat (nat_of_ascii c - 32) else c.

Fixpoint isASCII (s : string) : bool :=
  match s with
  | EmptyString => true
  | String c rest => (nat_of_ascii c <? 128)%nat && isASCII rest
  end.

Fixpoint hasLower (s : string) : bool :=
  match s with
  | EmptyString => false
  | String c rest => isLower c || hasLower rest
  end.

Fixpoint mapBytes (f : ascii -> ascii) (s : string) : string :=
  match s with
  | EmptyString => EmptyString
  | String c rest => String (f c) (mapBytes f rest)
  end.

(** [strings.ToUpper]: the ASCII fast path is written out. *)
Definition ToUpper `{Platform} (s : string) : string :=
  if isASCII s
  then if hasLower s then mapBytes upperByte s else s
  else mapUnicodeToUpper s.

End strings.


(** ** Package time: dates as [Format] sees them *)
Module time.

(** The calendar date that [t.Date()] reports; the clock part of the
    instant plays no role in the layout used here. *)
Record Time : Type := { Year : Z; Month : Z; Day : Z }.

Definition digit (n : N) : ascii := ascii_of_N (48 + n).

(** Decimal digits of [u], most significant first. *)
Fixpoint utoa (fuel : nat) (u : N) (acc : string) : string :=
  let acc' := String (digit (u mod 10)) acc in
  match fuel with
  | O => acc'
  | S fuel' => if (u / 10 =? 0)%N then acc' else utoa fuel' (u / 10) acc'
  end.

Fixpoint zeros (n : nat) : string :=
  match n with
  | O => EmptyString
  | S n' => String "0" (zeros n')
  end.

(** [appendInt(b, x, width)]: sign, then zero padding up to [width]. *)
Definition appendInt (x : Z) (width : nat) : string :=
  let u := Z.abs_N x in
  let ds := utoa (N.size_nat u) u EmptyString in
  (if (x <? 0)%Z then "-" else "") ++ zeros (width - String.length ds) ++ ds.

(** [t.Format(layout)].  The layout elements modelled are [2006], [01]
    and [02]; every other byte is copied. *)
Fixpoint Format (t : Time) (layout : string) : string :=
  match layout with
  | String "2" (String "0" (String "0" (String "6" rest))) =>
    appendInt (Year t) 4 ++ Format t rest
  | String "0" (String "1" rest) => appendInt (Month t) 2 ++ Format t rest
  | String "0" (String "2" rest) => appendInt (Day t) 2 ++ Format t rest
  | String c rest => String c (Format t rest)
  | EmptyString => EmptyString
  end.

End time.

(** ** Effects: a trace of collaborator calls, early return, panic *)

Inductive event : Type :=
| CallHttpClient
| CallBaseRepo
| CallREST (host method path : string)
| CallRender (rows : list (list string)).

(** How a statement ends: control goes on with a value, the enclosing
    function returns its error result, or a nil method call panics. *)
Inductive step (A : Type) : Type :=
| Next (a : A)
| Return (err : option error)
| Panic.
Arguments Next {A} a.
Arguments Return {A} err.
Arguments Panic {A}.

Definition M (A : Type) : Type := list event * step A.

Definition ret {A} (a : A) : M A := ([], Next a).

Definition bind {A B} (m : M A) (k : A -> M B) : M B :=
  match m with
  | (l1, Next a) => let (l2, s) := k a in ((l1 ++ l2)%list, s)
  | (l1, Return err) => (l1, Return err)
  | (l1, Panic) => (l1, Panic)
  end.

Definition emit (ev : event) : M unit := ([ev], Next tt).
Definition return_ {A} (err : option error) : M A := ([], Return err).
Definition panic {A} : M A := ([], Panic).

Notation "x <- m ;; k" := (bind m (fun x => k))
  (at level 61, m at next level, right associativity).
Notation "m ;;; k" := (bind m (fun _ => k))
  (at level 61, right associativity).

(** What a call of [listRun] amounts to for its caller. *)
Inductive outcome : Type :=
| Returned (err : option error)
| Panicked.

Definition finish (m : M (option error)) : list event * outcome :=
  match m with
  | (l, Next err) => (l, Returned err)
  | (l, Return err) => (l, Returned err)
  | (l, Panic) => (l, Panicked)
  end.

(** ** Data model of list.go *)

Record Secret : Type := {
  Name : string;
  UpdatedAt : time.Time;
  Visibility : string
}.

Record secretsPayload : Type := { Secrets : list Secret }.

(** ** Collaborating packages *)

Module shared.
(** Modelled from the spec: the visibility constants of package
    [secret/shared], which is not part of this source tree; the spec gives
    the tags as [all], [private] and [selected]. *)
Definition VisAll : string := "all".
Definition VisPrivate : string := "private".
Definition VisSelected : string := "selected".
End shared.

Module ghrepo.

(** A value behind [ghrepo.Interface]. *)
Record Repo : Type := { RepoName : string; RepoOwner : string; RepoHost : string }.

(** An interface variable: [None] is the nil interface. *)
Definition Interface : Type := option Repo.

Definition callRepoName (r : Interface) : M string :=
  match r with Some repo => ret (RepoName repo) | None => panic end.
Definition callRepoOwner (r : Interface) : M string :=
  match r with Some repo => ret (RepoOwner repo) | None => panic end.
Definition callRepoHost (r : Interface) : M string :=
  match r with Some repo => ret (RepoHost repo) | None => panic end.

(** Modelled from the spec: [ghrepo.FullName], which is not part of this
    source tree; the spec addresses a repository "by full owner/name". *)
Definition FullName (r : Interface) : M string :=
  owner <- callRepoOwner r ;;
  name <- callRepoName r ;;
  ret (fmt.Sprintf "%s/%s" [owner; name]).

End ghrepo.

Module http.
(** An authenticated client, seen through what a request on it yields once
    decoded into the payload shape: the decoded body or the transport or
    decoding failure. *)
Record Client : Type := {
  Do : string -> string -> string -> result secretsPayload
}.
End http.

Module api.

Record Client : Type := { httpClient : http.Client }.

Definition NewClientFromHTTP (c : http.Client) : Client := {| httpClient := c |}.

(** Modelled from the spec: [client.REST(host, method, path, nil, &data)]
    performs the call and decodes the JSON body into [data], or fails. *)
Definition REST (client : Client) (host method path : string) : M (result secretsPayload) :=
  emit (CallREST host method path) ;;;
  ret (http.Do (httpClient client) host method path).

End api.

Module iostreams.
(** The output side of [IOStreams]: whether stdout is a terminal, and what
    writing a finished table to it yields. *)
Record IOStreams : Type := {
  IsStdoutTTY : bool;
  writeOut : list (list string) -> option error
}.
End iostreams.

Module utils.

(** Modelled from the spec: the table printer, which is not part of this
    source tree, as a builder of rows of fields; [Render] writes the rows
    and reports a failed write.  The colour and width callbacks of
    [AddField] are nil at every call in list.go and are left out. *)
Record TablePrinter : Type := {
  out : iostreams.IOStreams;
  rows : list (list string);
  row : list string
}.

Definition NewTablePrinter (io : iostreams.IOStreams) : TablePrinter :=
  {| out := io; rows := []; row := [] |}.

Definition AddField (s : string) (tp : TablePrinter) : TablePrinter :=
  {| out := out tp; rows := rows tp; row := (row tp ++ [s])%list |}.

Definition EndRow (tp : TablePrinter) : TablePrinter :=
  {| out := out tp; rows := (rows tp ++ [row tp])%list; row := [] |}.

Definition Render (tp : TablePrinter) : M (option error) :=
  emit (CallRender (rows tp)) ;;;
  ret (iostreams.writeOut (out tp) (rows tp)).

End utils.

(** ** list.go *)

(** The two function fields answer with a value or with an error.  A nil
    repository returned together with a nil error, which Go's signature
    of [BaseRepo] admits, is not modelled: this embedding says nothing of
    a run in which the accessor answers that way. *)
Record ListOptions : Type := {
  HttpClient : unit -> result http.Client;
  IO : iostreams.IOStreams;
  BaseRepo : unit -> result ghrepo.Repo;
  OrgName : string
}.

Definition fmtVisibility (s : Secret) : string :=
  if Visibility s =? shared.VisAll then "Visible to all repositories"
  else if Visibility s =? shared.VisPrivate then "Visible to private repositories"
  else if Visibility s =? shared.VisSelected then "Visible to selected repositories"
  else "".

Definition getSecrets (client : api.Client) (host path : string) : M (result (list Secret)) :=
  r <- api.REST client host "GET" path ;;
  match r with
  | Err err => ret (Err err)
  | Ok result => ret (Ok (Secrets result))
  end.

Definition getOrgSecrets (client : api.Client) (host orgName : string) : M (result (list Secret)) :=
  getSecrets client host (fmt.Sprintf "orgs/%s/actions/secrets" [orgName]).

Definition getRepoSecrets (client : api.Client) (repo : ghrepo.Interface) : M (result (list Secret)) :=
  host <- ghrepo.callRepoHost repo ;;
  fullName <- ghrepo.FullName repo ;;
  getSecrets client host (fmt.Sprintf "repos/%s/actions/secrets" [fullName]).

(** The body of the [range secrets] loop of [listRun]. *)
Definition addSecretRow `{Platform} (io : iostreams.IOStreams)
    (tp : utils.TablePrinter) (secret : Secret) : utils.TablePrinter :=
  let tp := utils.AddField (Name secret) tp in
  let updatedAt := time.Format (UpdatedAt secret) "2006-01-02" in
  let updatedAt :=
    if iostreams.IsStdoutTTY io then fmt.Sprintf "Updated %s" [updatedAt] else updatedAt in
  let tp := utils.AddField updatedAt tp in
  let tp :=
    if negb (Visibility secret =? "")
    then if iostreams.IsStdoutTTY io
         then utils.AddField (fmtVisibility secret) tp
         else utils.AddField (strings.ToUpper (Visibility secret)) tp
    else tp in
  utils.EndRow tp.

Definition listRunBody `{Platform} (opts : ListOptions) : M (option error) :=
  c <- (emit CallHttpClient ;;;
        match HttpClient opts tt with
        | Err err => return_ (Some (fmt.Errorf "could not create http client: %w" err))
        | Ok c => ret c
        end) ;;
  let client := api.NewClientFromHTTP c in
  baseRepo <- (if (OrgName opts =? "") || (OrgName opts =? "@owner")
               then emit CallBaseRepo ;;;
                    match BaseRepo opts tt with
                    | Err err => return_ (Some (fmt.Errorf "could not determine base repo: %w" err))
                    | Ok repo => ret (Some repo)
                    end
               else ret None) ;;
  let orgName := OrgName opts in
  let host := OverridableDefault in
  target <- (if orgName =? "@owner"
             then orgName <- ghrepo.callRepoOwner baseRepo ;;
                  host <- ghrepo.callRepoHost baseRepo ;;
                  ret (orgName, host)
             else ret (orgName, host)) ;;
  let '(orgName, host) := target in
  fetched <- (if negb (orgName =? "")
              then getOrgSecrets client host orgName
              else getRepoSecrets client baseRepo) ;;
  secrets <- match fetched with
             | Err err => return_ (Some (fmt.Errorf "failed to get secrets: %w" err))
             | Ok secrets => ret secrets
             end ;;
  let tp := utils.NewTablePrinter (IO opts) in
  let tp := fold_left (addSecretRow (IO opts)) secrets tp in
  err <- utils.Render tp ;;
  match err with
  | Some err => return_ (Some err)
  | None => ret None
  end.

Definition listRun `{Platform} (opts : ListOptions) : list event * outcome :=
  finish (listRunBody opts).

(** ** Observations on a run *)

Definition trace (r : list event * outcome) : list event := fst r.
Definition returned (r : list event * outcome) : outcome := snd r.

(** The REST requests of a trace, as (host, method, path). *)
Fixpoint requests (l : list event) : list (string * string * string) :=
  match l with
  | [] => []
  | CallREST host method path :: l' => (host, method, path) :: requests l'
  | _ :: l' => requests l'
  end.

(** The tables handed to [Render]. *)
Fixpoint rendered (l : list event) : list (list (list string)) :=
  match l with
  | [] => []
  | CallRender t :: l' => t :: rendered l'
  | _ :: l' => rendered l'
  end.

(** The table [listRun] builds from the decoded secrets (the loop between
    [NewTablePrinter] and [Render]), and the row it builds for one secret. *)
Definition renderedTable `{Platform} (io : iostreams.IOStreams) (secrets : list Secret)
    : list (list string) :=
  utils.rows (fold_left (addSecretRow io) secrets (utils.NewTablePrinter io)).

Definition secretRow `{Platform} (io : iostreams.IOStreams) (secret : Secret) : list string :=
  hd [] (renderedTable io [secret]).

(** ** The paths through [listRun], as a relation

    [scope opts before host path]: the calls [before] resolve the scope and
    the request goes to [host] with [path]. *)
Inductive scope `{Platform} (opts : ListOptions) : list event -> string -> string -> Prop :=
| scope_org_literal :
    OrgName opts <> "" -> OrgName opts <> "@owner" ->
    scope opts [CallHttpClient] OverridableDefault
      ("orgs/" ++ OrgName opts ++ "/actions/secrets")
| scope_org_owner repo :
    OrgName opts = "@owner" -> BaseRepo opts tt = Ok repo ->
    ghrepo.RepoOwner repo <> "" ->
    scope opts [CallHttpClient; CallBaseRepo] (ghrepo.RepoHost repo)
      ("orgs/" ++ ghrepo.RepoOwner repo ++ "/actions/secrets")
| scope_repo repo :
    OrgName opts = "" \/ (OrgName opts = "@owner" /\ ghrepo.RepoOwner repo = "") ->
    BaseRepo opts tt = Ok repo ->
    scope opts [CallHttpClient; CallBaseRepo] (ghrepo.RepoHost repo)
      ("repos/" ++ ghrepo.RepoOwner repo ++ "/" ++ ghrepo.RepoName repo ++ "/actions/secrets").

Inductive run `{Platform} (opts : ListOptions) : list event * outcome -> Prop :=
| run_client_error err :
    HttpClient opts tt = Err err ->
    run opts ([CallHttpClient],
              Returned (Some (wrapError ("could not create http client: " ++ Error err) err)))
| run_repo_error c err :
    HttpClient opts tt = Ok c ->
    OrgName opts = "" \/ OrgName opts = "@owner" ->
    BaseRepo opts tt = Err err ->
    run opts ([CallHttpClient; CallBaseRepo],
              Returned (Some (wrapError ("could not determine base repo: " ++ Error err) err)))
| run_fetch_error c before host path err :
    HttpClient opts tt = Ok c ->
    scope opts before host path ->
    http.Do c host "GET" path = Err err ->
    run opts ((before ++ [CallREST host "GET" path])%list,
              Returned (Some (wrapError ("failed to get secrets: " ++ Error err) err)))
| run_rendered c before host path payload :
    HttpClient opts tt = Ok c ->
    scope opts before host path ->
    http.Do c host "GET" path = Ok payload ->
    let table := renderedTable (IO opts) (Secrets payload) in
    run opts ((before ++ [CallREST host "GET" path; CallRender table])%list,
              Returned (iostreams.writeOut (IO opts) table)).

(** ** Reading a date back, to say what YYYY-MM-DD means *)

Definition digitValue (c : ascii) : option Z :=
  let n := Z.of_N (N_of_ascii c) in
  if ((48 <=? n) && (n <=? 57))%Z then Some (n - 48)%Z else None.

Fixpoint readDigits (s : string) (acc : Z) : option Z :=
  match s with
  | EmptyString => Some acc
  | String c rest =>
    match digitValue c with
    | Some v => readDigits rest (10 * acc + v)%Z
    | None => None
    end
  end.

(** Four digits, a dash, two digits, a dash, two digits. *)
Definition readDate (s : string) : option (Z * Z * Z) :=
  if ((String.length s =? 10)%nat
      && match get 4 s, get 7 s with
         | Some a, Some b => Ascii.eqb a "-" && Ascii.eqb b "-"
         | _, _ => false
         end)%bool
  then match readDigits (substring 0 4 s) 0, readDigits (substring 5 2 s) 0,
             readDigits (substring 8 2 s) 0 with
       | Some y, Some m, Some d => Some (y, m, d)
       | _, _, _ => None
       end
  else None.

(** The dates an RFC 3339 timestamp can carry. *)
Definition validDate (t : time.Time) : Prop :=
  (0 <= time.Year t <= 9999 /\ 1 <= time.Month t <= 12 /\ 1 <= time.Day t <= 31)%Z.

(** [n] renders in exactly [width] digits that read back as [n]. *)
Definition rendersIn (width : nat) (n : Z) : bool :=
  let s := time.appendInt n width in
  ((String.length s =? width)%nat
   && match readDigits s 0 with Some v => (v =? n)%Z | None => false end)%bool.

(** ** Failures, by the collaborator that raises them *)

Inductive stage : Type := ClientCreation | Resolution | Fetch | Rendering.

Definition stageOf (ev : event) : stage :=
  match ev with
  | CallHttpClient => ClientCreation
  | CallBaseRepo => Resolution
  | CallREST _ _ _ => Fetch
  | CallRender _ => Rendering
  end.

(** The collaborator of stage [st] is called during the run and fails
    with [err]. *)
Definition raises `{Platform} (opts : ListOptions) (st : stage) (err : error) : Prop :=
  match st with
  | ClientCreation =>
    In CallHttpClient (trace (listRun opts)) /\ HttpClient opts tt = Err err
  | Resolution =>
    In CallBaseRepo (trace (listRun opts)) /\ BaseRepo opts tt = Err err
  | Fetch =>
    exists c host method path,
      HttpClient opts tt = Ok c /\
      In (CallREST host method path) (trace (listRun opts)) /\
      http.Do c host method path = Err err
  | Rendering =>
    exists table,
      In (CallRender table) (trace (listRun opts)) /\
      iostreams.writeOut (IO opts) table = Some err
  end.

(** What [listRun] returns for a failure of stage [st]. *)
Definition surfaced (st : stage) (err : error) : error :=
  match st with
  | ClientCreation => fmt.Errorf "could not create http client: %w" err
  | Resolution => fmt.Errorf "could not determine base repo: %w" err
  | Fetch => fmt.Errorf "failed to get secrets: %w" err
  | Rendering => err
  end.

Definition withBaseRepo (resolve : unit -> result ghrepo.Repo) (opts : ListOptions)
    : ListOptions :=
  {| HttpClient := HttpClient opts; IO := IO opts;
     BaseRepo := resolve; OrgName := OrgName opts |}.

Definition withOrgName (org : string) (opts : ListOptions) : ListOptions :=
  {| HttpClient := HttpClient opts; IO := IO opts;
     BaseRepo := BaseRepo opts; OrgName := org |}.

Definition withIO (io : iostreams.IOStreams) (opts : ListOptions) : ListOptions :=
  {| HttpClient := HttpClient opts; IO := io;
     BaseRepo := BaseRepo opts; OrgName := OrgName opts |}.

(** ** The command: [NewCmdList] *)

Module cmdutil.
(** The fields of [cmdutil.Factory] that [NewCmdList] reads. *)
Record Factory : Type := {
  IOStreams : iostreams.IOStreams;
  HttpClient : unit -> result http.Client;
  BaseRepo : unit -> result ghrepo.Repo
}.
End cmdutil.

Module cobra.

(** A string flag as [Flags().StringVar] registers it, with the
    [NoOptDefVal] set on it afterwards. *)
Record Flag : Type := {
  flagName : string;
  flagDefault : string;
  flagUsage : string;
  NoOptDefVal : string
}.

(** How the flag stands on a command line that parses: left out, given
    without a value, or given as [--name=value]. *)
Inductive given : Type :=
| Omitted
| Bare
| Valued (v : string).

(** The value pflag stores in the bound variable. *)
Definition stored (fl : Flag) (g : given) : string :=
  match g with
  | Omitted => flagDefault fl
  | Bare => NoOptDefVal fl
  | Valued v => v
  end.

(** A command with its one flag; [RunE] is read with the value the flag
    left in the bound variable. *)
Record Command : Type := {
  Use : string;
  Short : string;
  Long : string;
  orgFlag : Flag;
  RunE : string -> list event * outcome
}.

(** Running the command on a parsed command line. *)
Definition Execute (cmd : Command) (g : given) : list event * outcome :=
  RunE cmd (stored (orgFlag cmd) g).

End cobra.

(** [NewCmdList(f, runF)]: [opts] takes the streams and the client factory
    when the command is built and the repository accessor when it runs;
    [runF], when given, runs in place of [listRun]. *)
Definition NewCmdList `{Platform} (f : cmdutil.Factory)
    (runF : option (ListOptions -> list event * outcome)) : cobra.Command :=
  {| cobra.Use := "list";
     cobra.Short := "List secrets";
     cobra.Long := "List secrets for a repository or organization";
     cobra.orgFlag :=
       {| cobra.flagName := "org";
          cobra.flagDefault := "";
          cobra.flagUsage := "List secrets for an organization";
          cobra.NoOptDefVal := "@owner" |};
     cobra.RunE := fun orgName =>
       let opts := {| HttpClient := cmdutil.HttpClient f;
                      IO := cmdutil.IOStreams f;
                      BaseRepo := cmdutil.BaseRepo f;
                      OrgName := orgName |} in
       match runF with
       | Some run => run opts
       | None => listRun opts
       end |}.

(** ** Sample inputs *)

Definition github : Platform :=
  {| OverridableDefault := "github.com"; mapUnicodeToUpper := fun s => s |}.

Definition date (y m d : Z) : time.Time :=
  {| time.Year := y; time.Month := m; time.Day := d |}.

Definition respond (secrets : list Secret) : http.Client :=
  {| http.Do := fun _ _ _ => Ok {| Secrets := secrets |} |}.

Definition tty : iostreams.IOStreams :=
  {| iostreams.IsStdoutTTY := true; iostreams.writeOut := fun _ => None |}.
Definition piped : iostreams.IOStreams :=
  {| iostreams.IsStdoutTTY := false; iostreams.writeOut := fun _ => None |}.

Definition sampleRepo : ghrepo.Repo :=
  {| ghrepo.RepoName := "cl"; ghrepo.RepoOwner := "ScapyArtGroup"; ghrepo.RepoHost := "ghe.example.com" |}.

Definition sampleSecrets : list Secret :=
  [ {| Name := "TOKEN"; UpdatedAt := date 2024 1 15; Visibility := "all" |};
    {| Name := "DEPLOY_KEY"; UpdatedAt := date 2023 11 2; Visibility := "" |};
    {| Name := "API_KEY"; UpdatedAt := date 2022 6 30; Visibility := "internal" |} ].

Definition sampleOpts (io : iostreams.IOStreams) (org : string) : ListOptions :=
  {| HttpClient := fun _ => Ok (respond sampleSecrets);
     IO := io;
     BaseRepo := fun _ => Ok sampleRepo;
     OrgName := org |}.

(** Outside any repository: the accessor fails. *)
Definition outsideOpts (org : string) : ListOptions :=
  {| HttpClient := fun _ => Ok (respond sampleSecrets);
     IO := piped;
     BaseRepo := fun _ => Err (errorString "not a git repository");
     OrgName := org |}.

(** A repository value whose owner is the empty string. *)
Definition ownerlessRepo : ghrepo.Repo :=
  {| ghrepo.RepoName := "cl"; ghrepo.RepoOwner := ""; ghrepo.RepoHost := "ghe.example.com" |}.

Definition ownerlessOpts : ListOptions :=
  {| HttpClient := fun _ => Ok (respond sampleSecrets);
     IO := piped;
     BaseRepo := fun _ => Ok ownerlessRepo;
     OrgName := "@owner" |}.

(** The client factory fails. *)
Definition noToken : error := errorString "no token".

Definition noClientOpts : ListOptions :=
  {| HttpClient := fun _ => Err noToken;
     IO := piped;
     BaseRepo := fun _ => Ok sampleRepo;
     OrgName := "" |}.

(** The service answers with zero secrets. *)
Definition emptyOpts : ListOptions :=
  {| HttpClient := fun _ => Ok (respond []);
     IO := tty;
     BaseRepo := fun _ => Ok sampleRepo;
     OrgName := "" |}.

Definition token : Secret :=
  {| Name := "TOKEN"; UpdatedAt := date 2024 1 15; Visibility := "all" |}.
Definition deployKey : Secret :=
  {| Name := "DEPLOY_KEY"; UpdatedAt := date 2023 11 2; Visibility := "" |}.


(** A repository on the default host. *)
Definition dotcomRepo : ghrepo.Repo :=
  {| ghrepo.RepoName := "cl"; ghrepo.RepoOwner := "ScapyArtGroup"; ghrepo.RepoHost := "github.com" |}.

Definition dotcomOpts : ListOptions :=
  {| HttpClient := fun _ => Ok (respond sampleSecrets);
     IO := piped;
     BaseRepo := fun _ => Ok dotcomRepo;
     OrgName := "@owner" |}.

Definition sampleFactory : cmdutil.Factory :=
  {| cmdutil.IOStreams := piped;
     cmdutil.HttpClient := fun _ => Ok (respond sampleSecrets);
     cmdutil.BaseRepo := fun _ => Ok sampleRepo |}.

(** A factory outside any repository. *)
Definition outsideFactory : cmdutil.Factory :=
  {| cmdutil.IOStreams := piped;
     cmdutil.HttpClient := fun _ => Ok (respond sampleSecrets);
     cmdutil.BaseRepo := fun _ => Err (errorString "not a git repository") |}.

Definition apiKey : Secret :=
  {| Name := "API_KEY"; UpdatedAt := date 2022 6 30; Visibility := "internal" |}.

(** ** Byte strings and the format verbs *)

Lemma append_nil_r (s : string) : s ++ "" = s.
Proof. induction s as [|c s IH]; cbn; [reflexivity | now rewrite IH]. Qed.

Lemma append_assoc (s t u : string) : (s ++ t) ++ u = s ++ (t ++ u).
Proof. induction s as [|c s IH]; cbn; [reflexivity | now rewrite IH]. Qed.

Lemma Sprintf_updated (d : string) : fmt.Sprintf "Updated %s" [d] = "Updated " ++ d.
Proof. cbn. now rewrite append_nil_r. Qed.

Lemma Sprintf_orgs (org : string) :
  fmt.Sprintf "orgs/%s/actions/secrets" [org] = "orgs/" ++ org ++ "/actions/secrets".
Proof. reflexivity. Qed.

Lemma Sprintf_repos (owner name : string) :
  fmt.Sprintf "repos/%s/actions/secrets" [fmt.Sprintf "%s/%s" [owner; name]] =
  "repos/" ++ owner ++ "/" ++ name ++ "/actions/secrets".
Proof. cbn. now rewrite append_nil_r, append_assoc. Qed.

Lemma Errorf_client err :
  fmt.Errorf "could not create http client: %w" err =
  wrapError ("could not create http client: " ++ Error err) err.
Proof. unfold fmt.Errorf. cbn. now rewrite append_nil_r. Qed.

Lemma Errorf_repo err :
  fmt.Errorf "could not determine base repo: %w" err =
  wrapError ("could not determine base repo: " ++ Error err) err.
Proof. unfold fmt.Errorf. cbn. now rewrite append_nil_r. Qed.

Lemma Errorf_fetch err :
  fmt.Errorf "failed to get secrets: %w" err =
  wrapError ("failed to get secrets: " ++ Error err) err.
Proof. unfold fmt.Errorf. cbn. now rewrite append_nil_r. Qed.

(** ** Dates *)

Lemma forallb_below (P : Z -> bool) (count : Z) :
  forallb P (map Z.of_nat (seq 0 (Z.to_nat count))) = true ->
  forall n, (0 <= n < count)%Z -> P n = true.
Proof.
  intros Hall n Hn. rewrite forallb_forall in Hall. apply Hall.
  rewrite <- (Z2Nat.id n) by lia. apply in_map, in_seq. lia.
Qed.

Lemma rendersIn_4 (n : Z) : (0 <= n <= 9999)%Z -> rendersIn 4 n = true.
Proof.
  intros Hn. apply (forallb_below (rendersIn 4) 10000); [now vm_compute | lia].
Qed.

Lemma rendersIn_2 (n : Z) : (0 <= n <= 99)%Z -> rendersIn 2 n = true.
Proof.
  intros Hn. apply (forallb_below (rendersIn 2) 100); [now vm_compute | lia].
Qed.

Lemma rendersIn_spec width n :
  rendersIn width n = true ->
  String.length (time.appendInt n width) = width /\
  readDigits (time.appendInt n width) 0 = Some n.
Proof.
  unfold rendersIn. intros [Hlen Hread]%andb_prop.
  apply Nat.eqb_eq in Hlen. split; [assumption|].
  destruct (readDigits _ 0) as [v|]; [|discriminate].
  apply Z.eqb_eq in Hread. now subst.
Qed.

Lemma length_2 (s : string) :
  String.length s = 2 -> exists a b, s = String a (String b "").
Proof.
  destruct s as [|a [|b [|c s]]]; cbn; try discriminate. eauto.
Qed.

Lemma length_4 (s : string) :
  String.length s = 4 ->
  exists a b c d, s = String a (String b (String c (String d ""))).
Proof.
  destruct s as [|a [|b [|c [|d [|e s]]]]]; cbn; try discriminate. eauto 6.
Qed.

Lemma Format_date (t : time.Time) :
  time.Format t "2006-01-02" =
  time.appendInt (time.Year t) 4 ++ "-" ++ time.appendInt (time.Month t) 2
  ++ "-" ++ time.appendInt (time.Day t) 2.
Proof. cbn -[time.appendInt]. now rewrite append_nil_r. Qed.

(** In the RFC 3339 range the layout gives YYYY-MM-DD: ten bytes that
    read back as the date. *)
Lemma Format_reads_back (t : time.Time) :
  validDate t ->
  readDate (time.Format t "2006-01-02") = Some (time.Year t, time.Month t, time.Day t).
Proof.
  intros (Hy & Hm & Hd). rewrite Format_date.
  destruct (rendersIn_spec 4 _ (rendersIn_4 _ Hy)) as [Ly Ry].
  assert (Hm' : (0 <= time.Month t <= 99)%Z) by lia.
  assert (Hd' : (0 <= time.Day t <= 99)%Z) by lia.
  destruct (rendersIn_spec 2 _ (rendersIn_2 _ Hm')) as [Lm Rm].
  destruct (rendersIn_spec 2 _ (rendersIn_2 _ Hd')) as [Ld Rd].
  destruct (length_4 _ Ly) as (y1 & y2 & y3 & y4 & Ey).
  destruct (length_2 _ Lm) as (m1 & m2 & Em).
  destruct (length_2 _ Ld) as (d1 & d2 & Ed).
  rewrite Ey in *. rewrite Em in *. rewrite Ed in *.
  unfold readDate. cbn -[readDigits].
  now rewrite Ry, Rm, Rd.
Qed.

(** ** The table printer loop *)

Section Table.
Context `{Platform}.

Lemma addSecretRow_closed io tp secret :
  utils.row tp = [] ->
  utils.row (addSecretRow io tp secret) = [] /\
  utils.out (addSecretRow io tp secret) = utils.out tp /\
  utils.rows (addSecretRow io tp secret) =
    (utils.rows tp ++ [secretRow io secret])%list.
Proof.
  intros Hrow. unfold secretRow, renderedTable, addSecretRow. cbn [fold_left].
  unfold addSecretRow.
  destruct (Visibility secret =? ""), (iostreams.IsStdoutTTY io);
    cbn; rewrite Hrow; auto.
Qed.

Lemma fold_addSecretRow io secrets : forall tp,
  utils.row tp = [] ->
  utils.rows (fold_left (addSecretRow io) secrets tp) =
    (utils.rows tp ++ map (secretRow io) secrets)%list.
Proof.
  induction secrets as [|s secrets IH]; intros tp Hrow; cbn [fold_left map].
  - now rewrite app_nil_r.
  - destruct (addSecretRow_closed io tp s Hrow) as (Hr & _ & Hrows).
    rewrite (IH _ Hr), Hrows, <- app_assoc. reflexivity.
Qed.

Lemma fold_addSecretRow_out io secrets : forall tp,
  utils.row tp = [] ->
  utils.out (fold_left (addSecretRow io) secrets tp) = utils.out tp.
Proof.
  induction secrets as [|s secrets IH]; intros tp Hrow; cbn [fold_left].
  - reflexivity.
  - destruct (addSecretRow_closed io tp s Hrow) as (Hr & Hout & _).
    now rewrite (IH _ Hr).
Qed.

Lemma renderedTable_map io secrets :
  renderedTable io secrets = map (secretRow io) secrets.
Proof.
  unfold renderedTable. now rewrite fold_addSecretRow.
Qed.

Lemma secretRow_fields io secret :
  secretRow io secret =
    Name secret
    :: (if iostreams.IsStdoutTTY io
        then "Updated " ++ time.Format (UpdatedAt secret) "2006-01-02"
        else time.Format (UpdatedAt secret) "2006-01-02")
    :: (if Visibility secret =? "" then []
        else if iostreams.IsStdoutTTY io
             then [fmtVisibility secret]
             else [strings.ToUpper (Visibility secret)]).
Proof.
  unfold secretRow, renderedTable. cbn [fold_left]. unfold addSecretRow.
  rewrite Sprintf_updated.
  destruct (Visibility secret =? ""), (iostreams.IsStdoutTTY io); reflexivity.
Qed.

Lemma renderedTable_nth io secrets i secret :
  nth_error secrets i = Some secret ->
  nth_error (renderedTable io secrets) i = Some (secretRow io secret).
Proof.
  intros Hi. rewrite renderedTable_map. now apply map_nth_error.
Qed.

End Table.

(** ** Every run follows one of the paths *)

Ltac in_trace :=
  repeat match goal with
  | Hin : In _ (_ ++ _)%list |- _ => apply in_app_or in Hin
  | Hin : In _ (_ :: _) |- _ => destruct Hin as [Hin|Hin]; try discriminate Hin
  | Hin : In _ [] |- _ => destruct Hin
  | Hin : _ \/ _ |- _ => destruct Hin as [Hin|Hin]
  end.

Section Runs.
Context `{Platform}.

Lemma getSecrets_run client host path :
  getSecrets client host path =
  ([CallREST host "GET" path],
   Next match http.Do (api.httpClient client) host "GET" path with
        | Ok payload => Ok (Secrets payload)
        | Err err => Err err
        end).
Proof.
  unfold getSecrets, api.REST. cbn.
  now destruct (http.Do (api.httpClient client) host "GET" path).
Qed.

Lemma getOrgSecrets_run client host org :
  getOrgSecrets client host org =
  getSecrets client host ("orgs/" ++ org ++ "/actions/secrets").
Proof. reflexivity. Qed.

Lemma getRepoSecrets_run client repo :
  getRepoSecrets client (Some repo) =
  getSecrets client (ghrepo.RepoHost repo)
    ("repos/" ++ ghrepo.RepoOwner repo ++ "/" ++ ghrepo.RepoName repo ++ "/actions/secrets").
Proof.
  unfold getRepoSecrets, ghrepo.FullName. cbn -[fmt.Sprintf getSecrets].
  rewrite Sprintf_repos, !getSecrets_run. reflexivity.
Qed.

Lemma Render_run io secrets :
  utils.Render (fold_left (addSecretRow io) secrets (utils.NewTablePrinter io)) =
  ([CallRender (renderedTable io secrets)],
   Next (iostreams.writeOut io (renderedTable io secrets))).
Proof.
  unfold utils.Render. cbn -[fold_left].
  now rewrite fold_addSecretRow_out.
Qed.

Ltac run_go :=
  cbn -[fmt.Errorf getOrgSecrets getRepoSecrets utils.Render fold_left];
  rewrite ?Errorf_client, ?Errorf_repo, ?Errorf_fetch,
          ?getOrgSecrets_run, ?getRepoSecrets_run, ?getSecrets_run;
  cbn -[utils.Render fold_left].

(** After the request: decode failure, or the table and its write. *)
Ltac run_fetch Hc Hscope :=
  match goal with
  | |- context [http.Do ?c ?host "GET" ?path] =>
    let Hdo := fresh "Hdo" in
    destruct (http.Do c host "GET" path) as [payload|err] eqn:Hdo; run_go;
    [ rewrite Render_run; cbn -[renderedTable];
      match goal with
      | |- context [iostreams.writeOut ?io ?t] =>
        let Hw := fresh "Hw" in
        destruct (iostreams.writeOut io t) eqn:Hw; cbn -[renderedTable];
        rewrite <- Hw;
        exact (run_rendered _ c _ host path payload Hc Hscope Hdo)
      end
    | exact (run_fetch_error _ c _ host path err Hc Hscope Hdo) ]
  end.

Lemma listRun_run opts : run opts (listRun opts).
Proof.
  unfold listRun, listRunBody.
  destruct (HttpClient opts tt) as [c|err] eqn:Hc.
  2:{ run_go. now apply run_client_error. }
  destruct (String.eqb_spec (OrgName opts) "") as [Hempty|Hempty].
  - destruct (BaseRepo opts tt) as [repo|err] eqn:Hrepo; rewrite ?Hempty; run_go.
    2:{ eapply run_repo_error; eauto. }
    assert (Hscope : scope opts [CallHttpClient; CallBaseRepo] (ghrepo.RepoHost repo)
              ("repos/" ++ ghrepo.RepoOwner repo ++ "/" ++ ghrepo.RepoName repo ++ "/actions/secrets"))
      by (apply scope_repo; auto).
    run_fetch Hc Hscope.
  - destruct (String.eqb_spec (OrgName opts) "@owner") as [Howner|Howner].
    + destruct (BaseRepo opts tt) as [repo|err] eqn:Hrepo; rewrite ?Howner; run_go.
      2:{ eapply run_repo_error; eauto. }
      destruct (String.eqb_spec (ghrepo.RepoOwner repo) "") as [Hno|Hsome]; run_go.
      * assert (Hscope : scope opts [CallHttpClient; CallBaseRepo] (ghrepo.RepoHost repo)
              ("repos/" ++ ghrepo.RepoOwner repo ++ "/" ++ ghrepo.RepoName repo ++ "/actions/secrets"))
          by (apply scope_repo; auto).
        run_fetch Hc Hscope.
      * assert (Hscope : scope opts [CallHttpClient; CallBaseRepo] (ghrepo.RepoHost repo)
              ("orgs/" ++ ghrepo.RepoOwner repo ++ "/actions/secrets"))
          by (apply scope_org_owner; auto).
        run_fetch Hc Hscope.
    + pose proof (proj2 (String.eqb_neq _ _) Hempty) as E.
      run_go. rewrite E. run_go.
      assert (Hscope : scope opts [CallHttpClient] OverridableDefault
              ("orgs/" ++ OrgName opts ++ "/actions/secrets"))
        by (apply scope_org_literal; auto).
      run_fetch Hc Hscope.
Qed.

Lemma requests_app l1 l2 : requests (l1 ++ l2) = (requests l1 ++ requests l2)%list.
Proof.
  induction l1 as [|ev l1 IH]; cbn; [reflexivity|].
  destruct ev; cbn; now rewrite IH.
Qed.

Lemma rendered_app l1 l2 : rendered (l1 ++ l2) = (rendered l1 ++ rendered l2)%list.
Proof.
  induction l1 as [|ev l1 IH]; cbn; [reflexivity|].
  destruct ev; cbn; now rewrite IH.
Qed.

(** Resolving the scope calls the client factory, then at most the
    repository accessor, and nothing else. *)
Lemma scope_before opts before host path :
  scope opts before host path ->
  before = [CallHttpClient] \/ before = [CallHttpClient; CallBaseRepo].
Proof. destruct 1; auto. Qed.

Lemma scope_literal opts before host path :
  OrgName opts <> "" -> OrgName opts <> "@owner" ->
  scope opts before host path ->
  before = [CallHttpClient] /\ host = OverridableDefault /\
  path = "orgs/" ++ OrgName opts ++ "/actions/secrets".
Proof.
  intros Hne Hno Hs. inversion Hs; subst; auto; try contradiction.
  match goal with Hor : _ \/ _ |- _ => destruct Hor as [?|[? _]]; contradiction end.
Qed.

Lemma scope_owner opts repo before host path :
  OrgName opts = "@owner" -> BaseRepo opts tt = Ok repo ->
  ghrepo.RepoOwner repo <> "" ->
  scope opts before host path ->
  before = [CallHttpClient; CallBaseRepo] /\ host = ghrepo.RepoHost repo /\
  path = "orgs/" ++ ghrepo.RepoOwner repo ++ "/actions/secrets".
Proof.
  intros Ho Hr Hne Hs. inversion Hs as [? ?|repo' ? Hr' ?|repo' Hor Hr']; subst.
  - contradiction.
  - rewrite Hr in Hr'. injection Hr' as <-. auto.
  - rewrite Hr in Hr'. injection Hr' as <-.
    destruct Hor as [He|[_ He]]; [rewrite Ho in He; discriminate | contradiction].
Qed.

Lemma scope_current_repo opts repo before host path :
  OrgName opts = "" -> BaseRepo opts tt = Ok repo ->
  scope opts before host path ->
  before = [CallHttpClient; CallBaseRepo] /\ host = ghrepo.RepoHost repo /\
  path = "repos/" ++ ghrepo.RepoOwner repo ++ "/" ++ ghrepo.RepoName repo
         ++ "/actions/secrets".
Proof.
  intros Ho Hr Hs. inversion Hs as [Hne ?|repo' Ho' Hr' ?|repo' Hor Hr']; subst.
  - contradiction.
  - rewrite Ho in Ho'. discriminate.
  - rewrite Hr in Hr'. injection Hr' as <-. auto.
Qed.

(** The requests of a run: none when the client or the repository cannot
    be had, otherwise the one request of the resolved scope. *)
Lemma listRun_requests opts :
  (requests (trace (listRun opts)) = [] /\
   ((exists err, HttpClient opts tt = Err err) \/
    (exists err, BaseRepo opts tt = Err err /\
                 (OrgName opts = "" \/ OrgName opts = "@owner"))))
  \/
  (exists c before host path,
     HttpClient opts tt = Ok c /\ scope opts before host path /\
     requests (trace (listRun opts)) = [(host, "GET", path)]).
Proof.
  destruct (listRun_run opts) as [err Hc|c err Hc Ho Hr|c before host path err Hc Hs Hdo
                                  |c before host path payload Hc Hs Hdo table].
  - left. eauto.
  - left. split; [reflexivity|]. right. eauto.
  - right. exists c, before, host, path. repeat split; auto.
    unfold trace; cbn [fst]. rewrite requests_app.
    now destruct (scope_before _ _ _ _ Hs) as [-> | ->].
  - right. exists c, before, host, path. repeat split; auto.
    unfold trace; cbn [fst]. rewrite requests_app.
    now destruct (scope_before _ _ _ _ Hs) as [-> | ->].
Qed.

Lemma scope_resolved opts before host path :
  scope opts before host path ->
  In CallBaseRepo before -> exists repo, BaseRepo opts tt = Ok repo.
Proof.
  destruct 1; eauto. intros [?|[]]; discriminate.
Qed.

(** A table is rendered only from the payload of the one request. *)
Lemma listRun_rendered opts table :
  In (CallRender table) (trace (listRun opts)) ->
  exists c before host path payload,
    HttpClient opts tt = Ok c /\ scope opts before host path /\
    http.Do c host "GET" path = Ok payload /\
    table = renderedTable (IO opts) (Secrets payload) /\
    listRun opts = ((before ++ [CallREST host "GET" path; CallRender table])%list,
                    Returned (iostreams.writeOut (IO opts) table)).
Proof.
  intros Hin.
  destruct (listRun_run opts) as [err Hc|c err Hc Ho Hr|c before host path err Hc Hs Hdo
                                  |c before host path payload Hc Hs Hdo table'];
    unfold trace in Hin; cbn [fst] in Hin.
  - in_trace.
  - in_trace.
  - destruct (scope_before _ _ _ _ Hs) as [-> | ->]; in_trace.
  - assert (table = table') as ->.
    { destruct (scope_before _ _ _ _ Hs) as [-> | ->]; in_trace; congruence. }
    exists c, before, host, path, payload. auto.
Qed.

(** A request in the trace is the GET of the resolved scope, and the run
    ends either on its failure or on the rendering of its payload. *)
Lemma listRun_fetched opts host method path :
  In (CallREST host method path) (trace (listRun opts)) ->
  exists c before,
    HttpClient opts tt = Ok c /\ scope opts before host path /\ method = "GET" /\
    ((exists err,
        http.Do c host "GET" path = Err err /\
        listRun opts = ((before ++ [CallREST host "GET" path])%list,
                        Returned (Some (fmt.Errorf "failed to get secrets: %w" err))))
     \/
     (exists payload,
        http.Do c host "GET" path = Ok payload /\
        listRun opts =
          ((before ++ [CallREST host "GET" path;
                       CallRender (renderedTable (IO opts) (Secrets payload))])%list,
           Returned (iostreams.writeOut (IO opts)
                       (renderedTable (IO opts) (Secrets payload)))))).
Proof.
  intros Hin.
  destruct (listRun_run opts) as [err Hc|c err Hc Ho Hr|c before host' path' err Hc Hs Hdo
                                  |c before host' path' payload Hc Hs Hdo table'];
    unfold trace in Hin; cbn [fst] in Hin.
  - in_trace.
  - in_trace.
  - assert (host = host' /\ method = "GET" /\ path = path') as (-> & -> & ->).
    { destruct (scope_before _ _ _ _ Hs) as [-> | ->]; in_trace;
        injection Hin as <- <- <-; auto. }
    exists c, before. repeat split; auto. left. exists err.
    rewrite Errorf_fetch. auto.
  - assert (host = host' /\ method = "GET" /\ path = path') as (-> & -> & ->).
    { destruct (scope_before _ _ _ _ Hs) as [-> | ->]; in_trace;
        injection Hin as <- <- <-; auto. }
    exists c, before. repeat split; auto. right. exists payload. auto.
Qed.

(** No collaborator is called twice. *)
Lemma listRun_calls_once opts : NoDup (map stageOf (trace (listRun opts))).
Proof.
  destruct (listRun_run opts) as [err Hc|c err Hc Ho Hr|c before host path err Hc Hs Hdo
                                  |c before host path payload Hc Hs Hdo table'];
    unfold trace; cbn [fst];
    try (destruct (scope_before _ _ _ _ Hs) as [-> | ->]);
    cbn; repeat constructor; cbn; intuition discriminate.
Qed.

End Runs.

(** * The claims *)

Section Claims.
Context `{Platform}.

(** C1 (as amended): when [--org] is the shorthand [@owner] and the
    repository accessor returns a repository whose owner is not empty,
    every request of the run is the GET of
    [orgs/{owner}/actions/secrets] at that repository's host, and that
    request is issued once the client has been created. *)
Theorem C1_owner_shorthand_request opts repo :
  OrgName opts = "@owner" ->
  BaseRepo opts tt = Ok repo ->
  ghrepo.RepoOwner repo <> "" ->
  let expected := (ghrepo.RepoHost repo, "GET",
                   "orgs/" ++ ghrepo.RepoOwner repo ++ "/actions/secrets") in
  (forall req, In req (requests (trace (listRun opts))) -> req = expected) /\
  (forall c, HttpClient opts tt = Ok c ->
             requests (trace (listRun opts)) = [expected]).
Proof.
  intros Ho Hr Hne expected.
  destruct (listRun_requests opts)
    as [[Hnone [[err Hc]|[err [Hr' _]]]] | (c & before & host & path & Hc & Hs & Hreq)].
  - split; [rewrite Hnone; intros ? []|]. intros c Hc'. rewrite Hc in Hc'. discriminate.
  - rewrite Hr in Hr'. discriminate.
  - destruct (scope_owner _ _ _ _ _ Ho Hr Hne Hs) as (_ & -> & ->).
    rewrite Hreq. split; [|reflexivity].
    intros req [<-|[]]. reflexivity.
Qed.

(** C2: when [--org] is a literal organization name, every request of the
    run is the GET of [orgs/{name}/actions/secrets] at the default host,
    whatever the repository accessor would answer, and that request is
    issued once the client has been created. *)
Theorem C2_literal_org_request opts :
  OrgName opts <> "" ->
  OrgName opts <> "@owner" ->
  let expected := (OverridableDefault, "GET",
                   "orgs/" ++ OrgName opts ++ "/actions/secrets") in
  (forall req, In req (requests (trace (listRun opts))) -> req = expected) /\
  (forall c, HttpClient opts tt = Ok c ->
             requests (trace (listRun opts)) = [expected]).
Proof.
  intros Hne Hno expected.
  destruct (listRun_requests opts)
    as [[Hnone [[err Hc]|[err [_ [Ho|Ho]]]]] | (c & before & host & path & Hc & Hs & Hreq)];
    try contradiction.
  - split; [rewrite Hnone; intros ? []|]. intros c Hc'. rewrite Hc in Hc'. discriminate.
  - destruct (scope_literal _ _ _ _ Hne Hno Hs) as (_ & -> & ->).
    rewrite Hreq. split; [|reflexivity].
    intros req [<-|[]]. reflexivity.
Qed.

(** C3: when [--org] is omitted and the repository accessor returns a
    repository, every request of the run is the GET of
    [repos/{owner}/{name}/actions/secrets] at that repository's host, and
    that request is issued once the client has been created. *)
Theorem C3_repo_request opts repo :
  OrgName opts = "" ->
  BaseRepo opts tt = Ok repo ->
  let expected := (ghrepo.RepoHost repo, "GET",
                   "repos/" ++ ghrepo.RepoOwner repo ++ "/" ++ ghrepo.RepoName repo
                   ++ "/actions/secrets") in
  (forall req, In req (requests (trace (listRun opts))) -> req = expected) /\
  (forall c, HttpClient opts tt = Ok c ->
             requests (trace (listRun opts)) = [expected]).
Proof.
  intros Ho Hr expected.
  destruct (listRun_requests opts)
    as [[Hnone [[err Hc]|[err [Hr' _]]]] | (c & before & host & path & Hc & Hs & Hreq)].
  - split; [rewrite Hnone; intros ? []|]. intros c Hc'. rewrite Hc in Hc'. discriminate.
  - rewrite Hr in Hr'. discriminate.
  - destruct (scope_current_repo _ _ _ _ _ Ho Hr Hs) as (_ & -> & ->).
    rewrite Hreq. split; [|reflexivity].
    intros req [<-|[]]. reflexivity.
Qed.

(** C4: for a secret with a non-empty visibility tag the row has a third
    column; on a terminal it is the phrase for [all], [private] or
    [selected] and the empty string for any other tag, otherwise it is the
    tag in upper case. *)
Theorem C4_visibility_column io secrets i secret :
  nth_error secrets i = Some secret ->
  Visibility secret <> "" ->
  exists name updated col,
    nth_error (renderedTable io secrets) i = Some [name; updated; col] /\
    (iostreams.IsStdoutTTY io = true ->
       (Visibility secret = "all" -> col = "Visible to all repositories") /\
       (Visibility secret = "private" -> col = "Visible to private repositories") /\
       (Visibility secret = "selected" -> col = "Visible to selected repositories") /\
       (Visibility secret <> "all" -> Visibility secret <> "private" ->
        Visibility secret <> "selected" -> col = "")) /\
    (iostreams.IsStdoutTTY io = false ->
       col = strings.ToUpper (Visibility secret)).
Proof.
  intros Hi Hvis. rewrite (renderedTable_nth _ _ _ _ Hi), secretRow_fields.
  apply String.eqb_neq in Hvis. rewrite Hvis.
  destruct (iostreams.IsStdoutTTY io); eexists _, _, _; (split; [reflexivity|]).
  - split; [intros _|discriminate]. unfold fmtVisibility.
    repeat split.
    + now intros ->.
    + now intros ->.
    + now intros ->.
    + intros Ha Hp Hs.
      apply String.eqb_neq in Ha, Hp, Hs.
      unfold shared.VisAll, shared.VisPrivate, shared.VisSelected.
      now rewrite Ha, Hp, Hs.
  - split; [discriminate|reflexivity].
Qed.

(** C5 (as amended): the first collaborator to fail ends the run: its call
    is the last of the trace, no collaborator is called twice, and the
    error returned is the render error itself, or the client, repository
    or fetch error wrapped under the context prefix of its stage, with the
    original error as the wrapped cause. *)
Theorem C5_first_error_ends_run opts st err :
  raises opts st err ->
  returned (listRun opts) = Returned (Some (surfaced st err)) /\
  (match st with
   | Rendering => surfaced st err = err
   | ClientCreation =>
     Error (surfaced st err) = "could not create http client: " ++ Error err
   | Resolution =>
     Error (surfaced st err) = "could not determine base repo: " ++ Error err
   | Fetch => Error (surfaced st err) = "failed to get secrets: " ++ Error err
   end) /\
  (st <> Rendering -> Unwrap (surfaced st err) = Some err) /\
  (exists before ev, trace (listRun opts) = (before ++ [ev])%list /\ stageOf ev = st) /\
  NoDup (map stageOf (trace (listRun opts))).
Proof.
  intros Hraise.
  split; [|split; [|split; [|split; [|apply listRun_calls_once]]]].
  - destruct st; cbn [raises surfaced] in *.
    + destruct Hraise as [_ Hc].
      destruct (listRun_run opts) as [err' Hc'|c ? Hc'|c ? ? ? ? Hc'|c ? ? ? ? Hc'];
        rewrite Hc in Hc'; try discriminate.
      injection Hc' as <-. now rewrite Errorf_client.
    + destruct Hraise as [Hin Hr].
      destruct (listRun_run opts) as [err' Hc'|c err' Hc' ? Hr'|c before ? ? ? Hc' Hs
                                      |c before ? ? ? Hc' Hs];
        unfold trace in Hin; cbn [fst] in Hin.
      * in_trace.
      * rewrite Hr in Hr'. injection Hr' as <-. now rewrite Errorf_repo.
      * destruct (scope_resolved _ _ _ _ Hs) as [repo Hr'].
        { destruct (scope_before _ _ _ _ Hs) as [-> | ->]; in_trace; cbn; auto. }
        rewrite Hr in Hr'. discriminate.
      * destruct (scope_resolved _ _ _ _ Hs) as [repo Hr'].
        { destruct (scope_before _ _ _ _ Hs) as [-> | ->]; in_trace; cbn; auto. }
        rewrite Hr in Hr'. discriminate.
    + destruct Hraise as (c & host & method & path & Hc & Hin & Hdo).
      destruct (listRun_fetched _ _ _ _ Hin)
        as (c' & before & Hc' & _ & -> & [(err' & Hdo' & ->)|(payload & Hdo' & _)]);
        rewrite Hc in Hc'; injection Hc' as <-; rewrite Hdo in Hdo'.
      * now injection Hdo' as <-.
      * discriminate.
    + destruct Hraise as (table & Hin & Hw).
      destruct (listRun_rendered _ _ Hin) as (? & ? & ? & ? & ? & _ & _ & _ & _ & ->).
      cbn. now rewrite Hw.
  - destruct st; cbn [surfaced];
      rewrite ?Errorf_client, ?Errorf_repo, ?Errorf_fetch; reflexivity.
  - destruct st; intros Hst; try reflexivity. now contradiction Hst.
  - destruct st; cbn [raises] in Hraise.
    + destruct Hraise as [_ Hc].
      destruct (listRun_run opts) as [err' Hc'|c ? Hc'|c ? ? ? ? Hc'|c ? ? ? ? Hc'];
        rewrite Hc in Hc'; try discriminate.
      now exists [], CallHttpClient.
    + destruct Hraise as [Hin Hr].
      destruct (listRun_run opts) as [err' Hc'|c err' Hc' ? Hr'|c before ? ? ? Hc' Hs
                                      |c before ? ? ? Hc' Hs];
        unfold trace in *; cbn [fst] in *.
      * in_trace.
      * now exists [CallHttpClient], CallBaseRepo.
      * destruct (scope_resolved _ _ _ _ Hs) as [repo Hr'].
        { destruct (scope_before _ _ _ _ Hs) as [-> | ->]; in_trace; cbn; auto. }
        rewrite Hr in Hr'. discriminate.
      * destruct (scope_resolved _ _ _ _ Hs) as [repo Hr'].
        { destruct (scope_before _ _ _ _ Hs) as [-> | ->]; in_trace; cbn; auto. }
        rewrite Hr in Hr'. discriminate.
    + destruct Hraise as (c & host & method & path & Hc & Hin & Hdo).
      destruct (listRun_fetched _ _ _ _ Hin)
        as (c' & before & Hc' & _ & -> & [(err' & Hdo' & ->)|(payload & Hdo' & _)]);
        rewrite Hc in Hc'; injection Hc' as <-; rewrite Hdo in Hdo'.
      * now exists before, (CallREST host "GET" path).
      * discriminate.
    + destruct Hraise as (table & Hin & Hw).
      destruct (listRun_rendered _ _ Hin)
        as (? & before & host & path & ? & _ & _ & _ & _ & ->).
      exists (before ++ [CallREST host "GET" path])%list, (CallRender table).
      unfold trace; cbn [fst]. now rewrite <- app_assoc.
Qed.

(** C6: for every payload the request of the run decodes to, the run
    hands exactly one table to the renderer, and that table has exactly
    one row per secret of the payload (none for an empty payload), in the
    order of the payload: row [i] is the row built for secret [i] and
    starts with its name. *)
Theorem C6_one_row_per_secret opts c host path payload :
  HttpClient opts tt = Ok c ->
  In (CallREST host "GET" path) (trace (listRun opts)) ->
  http.Do c host "GET" path = Ok payload ->
  let table := map (secretRow (IO opts)) (Secrets payload) in
  rendered (trace (listRun opts)) = [table] /\
  length table = length (Secrets payload) /\
  (forall i secret,
     nth_error (Secrets payload) i = Some secret ->
     exists cols, nth_error table i = Some (Name secret :: cols)).
Proof.
  intros Hc Hin Hdo table.
  destruct (listRun_fetched _ _ _ _ Hin)
    as (c' & before & Hc' & Hs & _ & [(err & Hdo' & _)|(payload' & Hdo' & Hrun)]);
    rewrite Hc in Hc'; injection Hc' as <-; rewrite Hdo in Hdo'; [discriminate|].
  injection Hdo' as <-. split; [|split].
  - rewrite Hrun. unfold trace; cbn [fst]. rewrite rendered_app, renderedTable_map.
    now destruct (scope_before _ _ _ _ Hs) as [-> | ->].
  - apply length_map.
  - intros i secret Hi. subst table.
    rewrite (map_nth_error _ _ _ Hi), secretRow_fields. eauto.
Qed.

(** C7: the second column of a secret's row is its date in the layout
    2006-01-02, after the text "Updated " on a terminal and bare
    otherwise; for a date an RFC 3339 timestamp can carry, that is
    YYYY-MM-DD. *)
Theorem C7_updated_column io secrets i secret :
  nth_error secrets i = Some secret ->
  let d := time.Format (UpdatedAt secret) "2006-01-02" in
  (exists row,
     nth_error (renderedTable io secrets) i = Some row /\
     nth_error row 1 =
       Some (if iostreams.IsStdoutTTY io then "Updated " ++ d else d)) /\
  (validDate (UpdatedAt secret) ->
   readDate d = Some (time.Year (UpdatedAt secret), time.Month (UpdatedAt secret),
                      time.Day (UpdatedAt secret))).
Proof.
  intros Hi d. split.
  - eexists. split; [exact (renderedTable_nth _ _ _ _ Hi)|].
    now rewrite secretRow_fields.
  - apply Format_reads_back.
Qed.

(** C8: a secret with an empty visibility gets a row of exactly two
    columns, its name and its date. *)
Theorem C8_repo_secret_two_columns io secrets i secret :
  nth_error secrets i = Some secret ->
  Visibility secret = "" ->
  exists updated,
    nth_error (renderedTable io secrets) i = Some [Name secret; updated] /\
    length [Name secret; updated] = 2.
Proof.
  intros Hi Hvis. rewrite (renderedTable_nth _ _ _ _ Hi), secretRow_fields, Hvis.
  cbn. eauto.
Qed.

(** C9: when the request of the run is answered with a payload of zero
    secrets, the fetcher returns the empty sequence and no error, an empty
    table is rendered, and the run returns what writing that table
    returns: nil when the write succeeds. *)
Theorem C9_zero_secrets opts c host path payload :
  HttpClient opts tt = Ok c ->
  In (CallREST host "GET" path) (trace (listRun opts)) ->
  http.Do c host "GET" path = Ok payload ->
  Secrets payload = [] ->
  getSecrets (api.NewClientFromHTTP c) host path =
    ([CallREST host "GET" path], Next (Ok [])) /\
  rendered (trace (listRun opts)) = [[]] /\
  returned (listRun opts) = Returned (iostreams.writeOut (IO opts) []) /\
  (iostreams.writeOut (IO opts) [] = None ->
   returned (listRun opts) = Returned None).
Proof.
  intros Hc Hin Hdo Hnone.
  assert (Hget : getSecrets (api.NewClientFromHTTP c) host path =
                 ([CallREST host "GET" path], Next (Ok []))).
  { rewrite getSecrets_run. cbn. now rewrite Hdo, Hnone. }
  destruct (listRun_fetched _ _ _ _ Hin)
    as (c' & before & Hc' & Hs & _ & [(err & Hdo' & _)|(payload' & Hdo' & Hrun)]);
    rewrite Hc in Hc'; injection Hc' as <-; rewrite Hdo in Hdo'; [discriminate|].
  injection Hdo' as <-. rewrite Hnone in Hrun.
  change (renderedTable (IO opts) []) with (@nil (list string)) in Hrun.
  rewrite Hrun. unfold trace, returned; cbn [fst snd].
  repeat split; auto.
  - rewrite rendered_app.
    now destruct (scope_before _ _ _ _ Hs) as [-> | ->].
  - now intros ->.
Qed.

(** C10: with a literal organization name the repository accessor is not
    called and the run does not depend on it; the run does not panic, and
    it returns nil or the error of the client factory, of the fetch or of
    the renderer. *)
Theorem C10_literal_org_needs_no_repo opts :
  OrgName opts <> "" ->
  OrgName opts <> "@owner" ->
  ~ In CallBaseRepo (trace (listRun opts)) /\
  (forall resolve, listRun (withBaseRepo resolve opts) = listRun opts) /\
  (returned (listRun opts) = Returned None \/
   exists st err,
     st <> Resolution /\ raises opts st err /\
     returned (listRun opts) = Returned (Some (surfaced st err))).
Proof.
  intros Hne Hno. split; [|split].
  - intros Hin.
    destruct (listRun_run opts) as [err Hc|c err Hc [Ho|Ho] Hr|c before host path err Hc Hs Hdo
                                    |c before host path payload Hc Hs Hdo table];
      try contradiction; unfold trace in Hin; cbn [fst] in Hin.
    + in_trace.
    + destruct (scope_literal _ _ _ _ Hne Hno Hs) as (-> & _). in_trace.
    + destruct (scope_literal _ _ _ _ Hne Hno Hs) as (-> & _). in_trace.
  - intros resolve. unfold listRun, listRunBody, withBaseRepo.
    cbn [HttpClient IO BaseRepo OrgName].
    apply String.eqb_neq in Hne, Hno. now rewrite Hne, Hno.
  - remember (listRun opts) as r eqn:Er.
    pose proof (listRun_run opts) as Hrun. rewrite <- Er in Hrun.
    destruct Hrun as [err Hc|c err Hc [Ho|Ho] Hr|c before host path err Hc Hs Hdo
                      |c before host path payload Hc Hs Hdo table];
      try contradiction.
    + right. exists ClientCreation, err. repeat split; try discriminate; auto.
      * rewrite <- Er. now left.
      * cbn. now rewrite Errorf_client.
    + right. exists Fetch, err. repeat split; try discriminate.
      * exists c, host, "GET", path. repeat split; auto.
        rewrite <- Er. unfold trace; cbn [fst]. apply in_or_app. right. now left.
      * cbn. now rewrite Errorf_fetch.
    + unfold returned; cbn [snd].
      destruct (iostreams.writeOut (IO opts) table) as [err|] eqn:Hw; [|now left].
      right. exists Rendering, err. repeat split; try discriminate.
      exists table. split; auto.
      rewrite <- Er. unfold trace; cbn [fst]. apply in_or_app. right. right. now left.
Qed.

End Claims.

(** * The claims at concrete inputs *)

Lemma C1_owner_shorthand_request_witness :
  OrgName (sampleOpts tty "@owner") = "@owner" /\
  BaseRepo (sampleOpts tty "@owner") tt = Ok sampleRepo /\
  ghrepo.RepoOwner sampleRepo <> "" /\
  requests (trace (@listRun github (sampleOpts tty "@owner"))) =
    [("ghe.example.com", "GET", "orgs/ScapyArtGroup/actions/secrets")].
Proof.
  assert (Hne : ghrepo.RepoOwner sampleRepo <> "") by (cbn; discriminate).
  split; [reflexivity|]. split; [reflexivity|]. split; [exact Hne|].
  exact (proj2 (@C1_owner_shorthand_request github (sampleOpts tty "@owner")
                  sampleRepo eq_refl eq_refl Hne)
               (respond sampleSecrets) eq_refl).
Defined.

(** With [--org=@owner] and a repository whose owner is the empty string
    the request is the one for the repository, not for an organization. *)
Lemma C1_empty_owner_counterexample :
  OrgName ownerlessOpts = "@owner" /\
  BaseRepo ownerlessOpts tt = Ok ownerlessRepo /\
  requests (trace (@listRun github ownerlessOpts)) =
    [("ghe.example.com", "GET", "repos//cl/actions/secrets")] /\
  requests (trace (@listRun github ownerlessOpts)) <>
    [(ghrepo.RepoHost ownerlessRepo, "GET",
      "orgs/" ++ ghrepo.RepoOwner ownerlessRepo ++ "/actions/secrets")].
Proof.
  repeat split. vm_compute. discriminate.
Qed.

Lemma C2_literal_org_request_witness :
  OrgName (sampleOpts tty "acme") <> "" /\
  OrgName (sampleOpts tty "acme") <> "@owner" /\
  requests (trace (@listRun github (sampleOpts tty "acme"))) =
    [("github.com", "GET", "orgs/acme/actions/secrets")].
Proof.
  assert (Hne : OrgName (sampleOpts tty "acme") <> "") by (cbn; discriminate).
  assert (Hno : OrgName (sampleOpts tty "acme") <> "@owner") by (cbn; discriminate).
  split; [exact Hne|]. split; [exact Hno|].
  exact (proj2 (@C2_literal_org_request github (sampleOpts tty "acme") Hne Hno)
               (respond sampleSecrets) eq_refl).
Defined.

Lemma C3_repo_request_witness :
  OrgName (sampleOpts piped "") = "" /\
  BaseRepo (sampleOpts piped "") tt = Ok sampleRepo /\
  requests (trace (@listRun github (sampleOpts piped ""))) =
    [("ghe.example.com", "GET", "repos/ScapyArtGroup/cl/actions/secrets")].
Proof.
  split; [reflexivity|]. split; [reflexivity|].
  exact (proj2 (@C3_repo_request github (sampleOpts piped "") sampleRepo eq_refl eq_refl)
               (respond sampleSecrets) eq_refl).
Defined.

Lemma C4_visibility_column_witness :
  nth_error sampleSecrets 0 = Some token /\
  Visibility token <> "" /\
  (exists col,
     nth_error (@renderedTable github tty sampleSecrets) 0 =
       Some ["TOKEN"; "Updated 2024-01-15"; col] /\
     col = "Visible to all repositories") /\
  (exists col,
     nth_error (@renderedTable github piped sampleSecrets) 0 =
       Some ["TOKEN"; "2024-01-15"; col] /\
     col = "ALL").
Proof.
  assert (Hvis : Visibility token <> "") by (cbn; discriminate).
  split; [reflexivity|]. split; [exact Hvis|]. split.
  - destruct (@C4_visibility_column github tty sampleSecrets 0 token eq_refl Hvis)
      as (name & updated & col & Hrow & Htty & _).
    exists col. split.
    + rewrite Hrow. vm_compute in Hrow. now injection Hrow as <- <- <-.
    + now apply (Htty eq_refl).
  - destruct (@C4_visibility_column github piped sampleSecrets 0 token eq_refl Hvis)
      as (name & updated & col & Hrow & _ & Hpiped).
    exists col. split.
    + rewrite Hrow. vm_compute in Hrow. now injection Hrow as <- <- <-.
    + now rewrite (Hpiped eq_refl).
Defined.

(** A failed client factory is not surfaced as it is: the error returned
    is a new one that wraps it. *)
Lemma C5_wrapped_error_counterexample :
  HttpClient noClientOpts tt = Err noToken /\
  returned (@listRun github noClientOpts) =
    Returned (Some (wrapError "could not create http client: no token" noToken)) /\
  returned (@listRun github noClientOpts) <> Returned (Some noToken).
Proof.
  repeat split. vm_compute. discriminate.
Qed.

Lemma C5_first_error_ends_run_witness :
  @raises github noClientOpts ClientCreation noToken /\
  returned (@listRun github noClientOpts) =
    Returned (Some (surfaced ClientCreation noToken)) /\
  trace (@listRun github noClientOpts) = [CallHttpClient].
Proof.
  assert (Hraise : @raises github noClientOpts ClientCreation noToken).
  { split; [now left | reflexivity]. }
  split; [exact Hraise|]. split; [|reflexivity].
  exact (proj1 (@C5_first_error_ends_run github noClientOpts ClientCreation noToken Hraise)).
Defined.

Lemma C6_one_row_per_secret_witness :
  HttpClient (sampleOpts piped "acme") tt = Ok (respond sampleSecrets) /\
  In (CallREST "github.com" "GET" "orgs/acme/actions/secrets")
     (trace (@listRun github (sampleOpts piped "acme"))) /\
  http.Do (respond sampleSecrets) "github.com" "GET" "orgs/acme/actions/secrets" =
    Ok {| Secrets := sampleSecrets |} /\
  rendered (trace (@listRun github (sampleOpts piped "acme"))) =
    [[["TOKEN"; "2024-01-15"; "ALL"]; ["DEPLOY_KEY"; "2023-11-02"];
      ["API_KEY"; "2022-06-30"; "INTERNAL"]]] /\
  length (map (@secretRow github piped) sampleSecrets) = 3.
Proof.
  assert (Hin : In (CallREST "github.com" "GET" "orgs/acme/actions/secrets")
                   (trace (@listRun github (sampleOpts piped "acme")))).
  { vm_compute. auto. }
  destruct (@C6_one_row_per_secret github (sampleOpts piped "acme")
              (respond sampleSecrets) _ _ {| Secrets := sampleSecrets |}
              eq_refl Hin eq_refl) as (Hrendered & Hlen & _).
  split; [reflexivity|]. split; [exact Hin|]. split; [reflexivity|].
  split; [exact Hrendered | exact Hlen].
Defined.

Lemma C7_updated_column_witness :
  nth_error sampleSecrets 0 = Some token /\
  validDate (UpdatedAt token) /\
  (exists row,
     nth_error (@renderedTable github tty sampleSecrets) 0 = Some row /\
     nth_error row 1 = Some "Updated 2024-01-15") /\
  (exists row,
     nth_error (@renderedTable github piped sampleSecrets) 0 = Some row /\
     nth_error row 1 = Some "2024-01-15") /\
  readDate "2024-01-15" = Some (2024, 1, 15)%Z.
Proof.
  assert (Hvalid : validDate (UpdatedAt token)) by (unfold validDate; cbn; lia).
  split; [reflexivity|]. split; [exact Hvalid|]. split; [|split].
  - exact (proj1 (@C7_updated_column github tty sampleSecrets 0 token eq_refl)).
  - exact (proj1 (@C7_updated_column github piped sampleSecrets 0 token eq_refl)).
  - exact (proj2 (@C7_updated_column github piped sampleSecrets 0 token eq_refl) Hvalid).
Defined.

Lemma C8_repo_secret_two_columns_witness :
  nth_error sampleSecrets 1 = Some deployKey /\
  Visibility deployKey = "" /\
  exists updated,
    nth_error (@renderedTable github tty sampleSecrets) 1 = Some ["DEPLOY_KEY"; updated] /\
    length ["DEPLOY_KEY"; updated] = 2.
Proof.
  split; [reflexivity|]. split; [reflexivity|].
  exact (@C8_repo_secret_two_columns github tty sampleSecrets 1 deployKey eq_refl eq_refl).
Defined.

Lemma C9_zero_secrets_witness :
  HttpClient emptyOpts tt = Ok (respond []) /\
  In (CallREST "ghe.example.com" "GET" "repos/ScapyArtGroup/cl/actions/secrets")
     (trace (@listRun github emptyOpts)) /\
  rendered (trace (@listRun github emptyOpts)) = [[]] /\
  returned (@listRun github emptyOpts) = Returned None.
Proof.
  assert (Hin : In (CallREST "ghe.example.com" "GET"
                      "repos/ScapyArtGroup/cl/actions/secrets")
                   (trace (@listRun github emptyOpts))).
  { vm_compute. auto. }
  destruct (@C9_zero_secrets github emptyOpts (respond []) _ _ {| Secrets := [] |}
              eq_refl Hin eq_refl eq_refl) as (_ & Hrendered & _ & Hnil).
  split; [reflexivity|]. split; [exact Hin|]. split; [exact Hrendered|].
  exact (Hnil eq_refl).
Defined.

Lemma C10_literal_org_needs_no_repo_witness :
  OrgName (outsideOpts "acme") <> "" /\
  OrgName (outsideOpts "acme") <> "@owner" /\
  ~ In CallBaseRepo (trace (@listRun github (outsideOpts "acme"))) /\
  @listRun github (withBaseRepo (fun _ => Ok sampleRepo) (outsideOpts "acme")) =
    @listRun github (outsideOpts "acme").
Proof.
  assert (Hne : OrgName (outsideOpts "acme") <> "") by (cbn; discriminate).
  assert (Hno : OrgName (outsideOpts "acme") <> "@owner") by (cbn; discriminate).
  destruct (@C10_literal_org_needs_no_repo github (outsideOpts "acme") Hne Hno)
    as (Hskip & Hsame & _).
  split; [exact Hne|]. split; [exact Hno|]. split; [exact Hskip|].
  exact (Hsame (fun _ => Ok sampleRepo)).
Defined.

(** * Further properties of list.go *)

Ltac run_cases opts r Er :=
  remember (listRun opts) as r eqn:Er;
  let Hrun := fresh "Hrun" in
  pose proof (listRun_run opts) as Hrun; rewrite <- Er in Hrun;
  destruct Hrun as [err' Hc'|c' err' Hc' Ho' Hr'|c' before host' path' err' Hc' Hs' Hdo'
                    |c' before host' path' payload' Hc' Hs' Hdo' table'].

Section Calls.
Context `{Platform}.

(** X2: when the client factory fails, nothing else is called, whatever
    the flag and the repository accessor: the trace is the one factory
    call and the error is the factory's, wrapped. *)
Theorem X2_client_failure_calls_nothing_else opts err :
  HttpClient opts tt = Err err ->
  listRun opts =
    ([CallHttpClient],
     Returned (Some (fmt.Errorf "could not create http client: %w" err))).
Proof.
  intros Hc. run_cases opts r Er; rewrite Hc in Hc'; try discriminate.
  injection Hc' as <-. now rewrite Errorf_client.
Qed.

(** X3: when the repository is needed (flag omitted or [@owner]) and the
    accessor fails, the run ends after the accessor call: no request is
    sent and nothing is rendered. *)
Theorem X3_resolution_failure_sends_nothing opts c err :
  HttpClient opts tt = Ok c ->
  OrgName opts = "" \/ OrgName opts = "@owner" ->
  BaseRepo opts tt = Err err ->
  listRun opts =
    ([CallHttpClient; CallBaseRepo],
     Returned (Some (fmt.Errorf "could not determine base repo: %w" err))).
Proof.
  intros Hc Ho Hr. run_cases opts r Er.
  - rewrite Hc in Hc'. discriminate.
  - rewrite Hr in Hr'. injection Hr' as <-. now rewrite Errorf_repo.
  - exfalso. inversion Hs' as [Hne Hno|repo ? Hr''|repo ? Hr'']; subst.
    + destruct Ho; contradiction.
    + rewrite Hr in Hr''. discriminate.
    + rewrite Hr in Hr''. discriminate.
  - exfalso. inversion Hs' as [Hne Hno|repo ? Hr''|repo ? Hr'']; subst.
    + destruct Ho; contradiction.
    + rewrite Hr in Hr''. discriminate.
    + rewrite Hr in Hr''. discriminate.
Qed.

Lemma listRun_calls_accessor opts c :
  HttpClient opts tt = Ok c ->
  (In CallBaseRepo (trace (listRun opts)) <->
   OrgName opts = "" \/ OrgName opts = "@owner").
Proof.
  intros Hc. run_cases opts r Er; unfold trace; cbn [fst].
  - rewrite Hc in Hc'. discriminate.
  - split; [auto | intros _; cbn; auto].
  - destruct Hs' as [Hne Hno|repo Ho ? ?|repo Ho ?].
    + split; [intros Hin; in_trace | intros [?|?]; contradiction].
    + split; [auto | intros _; cbn; auto].
    + split; [intros _; tauto | intros _; cbn; auto].
  - destruct Hs' as [Hne Hno|repo Ho ? ?|repo Ho ?].
    + split; [intros Hin; in_trace | intros [?|?]; contradiction].
    + split; [auto | intros _; cbn; auto].
    + split; [intros _; tauto | intros _; cbn; auto].
Qed.

(** X4: once the client exists, the repository accessor is called exactly
    when the flag is omitted or is [@owner]. *)
Theorem X4_accessor_called_iff_needed opts c :
  HttpClient opts tt = Ok c ->
  (In CallBaseRepo (trace (listRun opts)) <->
   OrgName opts = "" \/ OrgName opts = "@owner").
Proof. apply listRun_calls_accessor. Qed.

(** X5: a run sends at most one request; it is a GET, and its path is
    either [orgs/{org}/actions/secrets] for a non-empty [org] or the
    secrets path of the repository the accessor returned. *)
Theorem X5_one_get_of_a_secrets_path opts host method path :
  In (CallREST host method path) (trace (listRun opts)) ->
  requests (trace (listRun opts)) = [(host, method, path)] /\
  method = "GET" /\
  ((exists org, org <> "" /\ path = "orgs/" ++ org ++ "/actions/secrets") \/
   (exists repo,
      BaseRepo opts tt = Ok repo /\ host = ghrepo.RepoHost repo /\
      path = "repos/" ++ ghrepo.RepoOwner repo ++ "/" ++ ghrepo.RepoName repo
             ++ "/actions/secrets")).
Proof.
  intros Hin.
  destruct (listRun_fetched _ _ _ _ Hin) as (c & before & Hc & Hs & -> & Hrun).
  split; [|split; [reflexivity|]].
  - destruct Hrun as [(err & _ & ->)|(payload & _ & ->)];
      unfold trace; cbn [fst]; rewrite requests_app;
      now destruct (scope_before _ _ _ _ Hs) as [-> | ->].
  - destruct Hs as [Hne Hno|repo Ho Hr Hne|repo Ho Hr].
    + left. eauto.
    + left. eauto.
    + right. eauto.
Qed.

(** X6: [listRun] returns nil exactly when one table was handed to the
    renderer and writing it succeeded. *)
Theorem X6_nil_iff_table_written opts :
  returned (listRun opts) = Returned None <->
  exists table,
    rendered (trace (listRun opts)) = [table] /\
    iostreams.writeOut (IO opts) table = None.
Proof.
  run_cases opts r Er; unfold trace, returned; cbn [fst snd].
  - split; [discriminate | intros (? & Hr & _); discriminate].
  - split; [discriminate | intros (? & Hr & _); discriminate].
  - split; [discriminate|]. intros (? & Hr & _). rewrite rendered_app in Hr.
    destruct (scope_before _ _ _ _ Hs') as [-> | ->]; discriminate.
  - assert (Hr : rendered (before ++ [CallREST host' "GET" path'; CallRender table'])
                 = [table']).
    { rewrite rendered_app. now destruct (scope_before _ _ _ _ Hs') as [-> | ->]. }
    rewrite Hr. split.
    + intros Hw. exists table'. split; [reflexivity|]. now injection Hw.
    + intros (table & Ht & Hw). injection Ht as <-. now rewrite Hw.
Qed.

End Calls.

Ltac run_body :=
  cbn -[fmt.Errorf getOrgSecrets getRepoSecrets utils.Render fold_left];
  rewrite ?Errorf_client, ?Errorf_repo, ?Errorf_fetch,
          ?getOrgSecrets_run, ?getRepoSecrets_run, ?getSecrets_run;
  cbn -[utils.Render fold_left].

Section Scopes.
Context `{Platform}.

(** X7: with [@owner] and a repository whose owner is the empty string,
    the run is the run with the flag omitted: the repository's own
    secrets are listed. *)
Theorem X7_empty_owner_lists_repository opts repo :
  OrgName opts = "@owner" ->
  BaseRepo opts tt = Ok repo ->
  ghrepo.RepoOwner repo = "" ->
  listRun opts = listRun (withOrgName "" opts).
Proof.
  intros Ho Hr Hnone. unfold listRun, listRunBody, withOrgName.
  cbn [HttpClient IO BaseRepo OrgName]. rewrite Ho, Hr.
  destruct (HttpClient opts tt) as [c|err]; [|reflexivity].
  run_body. rewrite Hnone. reflexivity.
Qed.

(** X8: for a repository on the default host whose owner is a usable
    organization name, [@owner] sends the same request, renders the same
    table and returns the same result as the owner's name given
    literally. *)
Theorem X8_owner_shorthand_as_literal opts repo :
  OrgName opts = "@owner" ->
  BaseRepo opts tt = Ok repo ->
  ghrepo.RepoOwner repo <> "" ->
  ghrepo.RepoOwner repo <> "@owner" ->
  ghrepo.RepoHost repo = OverridableDefault ->
  let literal := listRun (withOrgName (ghrepo.RepoOwner repo) opts) in
  requests (trace (listRun opts)) = requests (trace literal) /\
  rendered (trace (listRun opts)) = rendered (trace literal) /\
  returned (listRun opts) = returned literal.
Proof.
  intros Ho Hr Hne Hno Hhost literal. subst literal.
  apply String.eqb_neq in Hne, Hno.
  unfold listRun, listRunBody, withOrgName.
  cbn [HttpClient IO BaseRepo OrgName]. rewrite Ho, Hr, Hne, Hno.
  destruct (HttpClient opts tt) as [c|err]; [|now cbn].
  run_body. rewrite Hne, Hhost. run_body.
  destruct (http.Do c OverridableDefault "GET" _) as [payload|err]; run_body.
  - rewrite Render_run. cbn -[renderedTable].
    now destruct (iostreams.writeOut (IO opts) _).
  - auto.
Qed.

End Scopes.

(** X9: when the flag is omitted or is [@owner], the default host plays
    no part: the run is the same under any default host. *)
Theorem X9_default_host_unused_for_repository (d1 d2 : string)
    (upper : string -> string) opts :
  OrgName opts = "" \/ OrgName opts = "@owner" ->
  @listRun {| OverridableDefault := d1; mapUnicodeToUpper := upper |} opts =
  @listRun {| OverridableDefault := d2; mapUnicodeToUpper := upper |} opts.
Proof.
  intros Ho. unfold listRun, listRunBody.
  destruct (HttpClient opts tt) as [c|err]; [|reflexivity].
  destruct (BaseRepo opts tt) as [repo|err];
    destruct Ho as [-> | ->]; run_body; reflexivity.
Qed.

(** ** Upper-casing ASCII tags *)

Lemma upperByte_not_lower (c : ascii) : strings.isLower (strings.upperByte c) = false.
Proof. destruct c as [[] [] [] [] [] [] [] []]; reflexivity. Qed.

Lemma upperByte_ascii (c : ascii) :
  (nat_of_ascii c <? 128)%nat = true ->
  (nat_of_ascii (strings.upperByte c) <? 128)%nat = true.
Proof. destruct c as [[] [] [] [] [] [] [] []]; intros Hc; vm_compute in *; auto. Qed.

Lemma upperByte_fixed (c : ascii) :
  strings.isLower c = false -> strings.upperByte c = c.
Proof. unfold strings.upperByte. now intros ->. Qed.

Lemma mapBytes_upper_fixed (s : string) :
  strings.hasLower s = false -> strings.mapBytes strings.upperByte s = s.
Proof.
  induction s as [|c s IH]; cbn [strings.hasLower strings.mapBytes]; [reflexivity|].
  intros [Hc Hs]%orb_false_elim. now rewrite (upperByte_fixed _ Hc), IH.
Qed.

Lemma mapBytes_upper_no_lower (s : string) :
  strings.hasLower (strings.mapBytes strings.upperByte s) = false.
Proof.
  induction s as [|c s IH]; cbn [strings.hasLower strings.mapBytes]; [reflexivity|].
  now rewrite upperByte_not_lower, IH.
Qed.

Lemma mapBytes_upper_ascii (s : string) :
  strings.isASCII s = true ->
  strings.isASCII (strings.mapBytes strings.upperByte s) = true.
Proof.
  induction s as [|c s IH]; cbn [strings.isASCII strings.mapBytes]; [reflexivity|].
  intros [Hc Hs]%andb_prop. now rewrite (upperByte_ascii _ Hc), IH.
Qed.

Lemma mapBytes_length (f : ascii -> ascii) (s : string) :
  String.length (strings.mapBytes f s) = String.length s.
Proof. induction s as [|c s IH]; cbn; [reflexivity | now rewrite IH]. Qed.

Section Rows.
Context `{Platform}.

(** On ASCII input [strings.ToUpper] is the bytewise map. *)
Lemma ToUpper_ascii (s : string) :
  strings.isASCII s = true ->
  strings.ToUpper s = strings.mapBytes strings.upperByte s.
Proof.
  intros Hs. unfold strings.ToUpper. rewrite Hs.
  destruct (strings.hasLower s) eqn:Hl; [reflexivity|].
  now rewrite mapBytes_upper_fixed.
Qed.

Lemma renderedTable_row io secrets i row :
  nth_error (renderedTable io secrets) i = Some row ->
  exists secret, nth_error secrets i = Some secret /\ row = secretRow io secret.
Proof.
  rewrite renderedTable_map, nth_error_map.
  destruct (nth_error secrets i) as [secret|]; cbn; [|discriminate].
  intros [= <-]. eauto.
Qed.

(** X10: every row has two or three columns, three exactly for the
    secrets with a non-empty visibility, on a terminal or not. *)
Theorem X10_row_widths io secrets :
  map (@length string) (renderedTable io secrets) =
  map (fun secret => if Visibility secret =? "" then 2 else 3) secrets.
Proof.
  rewrite renderedTable_map, map_map. apply map_ext. intros secret.
  rewrite secretRow_fields.
  now destruct (Visibility secret =? ""), (iostreams.IsStdoutTTY io).
Qed.

(** X11: the terminal table and the piped table of the same secrets have
    the same shape: row by row the same number of columns and the same
    name, and the terminal's date column is the piped one after the text
    "Updated ". *)
Theorem X11_terminal_and_piped_rows_agree ioT ioP secrets i rowP :
  iostreams.IsStdoutTTY ioT = true ->
  iostreams.IsStdoutTTY ioP = false ->
  nth_error (renderedTable ioP secrets) i = Some rowP ->
  exists rowT,
    nth_error (renderedTable ioT secrets) i = Some rowT /\
    length rowT = length rowP /\
    nth_error rowT 0 = nth_error rowP 0 /\
    (forall d, nth_error rowP 1 = Some d ->
               nth_error rowT 1 = Some ("Updated " ++ d)).
Proof.
  intros HT HP Hrow.
  destruct (renderedTable_row _ _ _ _ Hrow) as (secret & Hi & ->).
  exists (secretRow ioT secret). split; [now apply renderedTable_nth|].
  rewrite !secretRow_fields, HT, HP.
  repeat split.
  - now destruct (Visibility secret =? "").
  - cbn. now intros d [= <-].
Qed.

(** X12: the rows of a payload do not depend on one another: the table of
    two sequences put end to end is the two tables put end to end. *)
Theorem X12_table_of_concatenation io (first second : list Secret) :
  renderedTable io (first ++ second) =
  (renderedTable io first ++ renderedTable io second)%list.
Proof.
  rewrite !renderedTable_map. apply map_app.
Qed.

(** X13: in the RFC 3339 range the date column tells dates apart: two
    timestamps with the same text have the same year, month and day. *)
Theorem X13_date_text_is_injective (t1 t2 : time.Time) :
  validDate t1 -> validDate t2 ->
  time.Format t1 "2006-01-02" = time.Format t2 "2006-01-02" ->
  t1 = t2.
Proof.
  intros H1 H2 Heq.
  pose proof (Format_reads_back t1 H1) as R1.
  pose proof (Format_reads_back t2 H2) as R2.
  rewrite Heq, R2 in R1. destruct t1, t2; cbn in R1. now injection R1 as -> -> ->.
Qed.

(** X14: off a terminal, the visibility column of an ASCII tag is never
    empty, has the length of the tag, holds no lower-case letter and is
    left as it is by a second upper-casing. *)
Theorem X14_piped_visibility_is_upper_case io secrets i secret :
  iostreams.IsStdoutTTY io = false ->
  nth_error secrets i = Some secret ->
  Visibility secret <> "" ->
  strings.isASCII (Visibility secret) = true ->
  exists name updated col,
    nth_error (renderedTable io secrets) i = Some [name; updated; col] /\
    col <> "" /\
    String.length col = String.length (Visibility secret) /\
    strings.hasLower col = false /\
    strings.ToUpper col = col.
Proof.
  intros Hio Hi Hvis Hascii.
  rewrite (renderedTable_nth _ _ _ _ Hi), secretRow_fields, Hio.
  apply String.eqb_neq in Hvis. rewrite Hvis.
  eexists _, _, _. split; [reflexivity|].
  rewrite (ToUpper_ascii _ Hascii).
  repeat split.
  - apply String.eqb_neq in Hvis.
    destruct (Visibility secret); [contradiction | cbn; discriminate].
  - apply mapBytes_length.
  - apply mapBytes_upper_no_lower.
  - rewrite ToUpper_ascii by now apply mapBytes_upper_ascii.
    apply mapBytes_upper_fixed, mapBytes_upper_no_lower.
Qed.

(** X15: [fmtVisibility] is blank exactly for the tags other than [all],
    [private] and [selected], compared byte for byte. *)
Theorem X15_fmtVisibility_blank_iff_unknown secret :
  fmtVisibility secret = "" <->
  Visibility secret <> "all" /\ Visibility secret <> "private" /\
  Visibility secret <> "selected".
Proof.
  unfold fmtVisibility, shared.VisAll, shared.VisPrivate, shared.VisSelected.
  destruct (String.eqb_spec (Visibility secret) "all") as [->|Ha];
    [split; [discriminate | intros (E & _); now contradiction E]|].
  destruct (String.eqb_spec (Visibility secret) "private") as [->|Hp];
    [split; [discriminate | intros (_ & E & _); now contradiction E]|].
  destruct (String.eqb_spec (Visibility secret) "selected") as [->|Hs];
    [split; [discriminate | intros (_ & _ & E); now contradiction E]|].
  tauto.
Qed.

End Rows.

Section Command.
Context `{Platform}.

(** X16: run without a test hook, the command asks the factory for the
    repository exactly when [--org] is left out, given bare, or given the
    value [""] or [@owner]; with any other value the factory's accessor is
    not called. *)
Theorem X16_command_resolves_repository_iff f g c :
  cmdutil.HttpClient f tt = Ok c ->
  (In CallBaseRepo (trace (cobra.Execute (NewCmdList f None) g)) <->
   g = cobra.Omitted \/ g = cobra.Bare \/
   g = cobra.Valued "" \/ g = cobra.Valued "@owner").
Proof.
  intros Hc. unfold cobra.Execute, NewCmdList. cbn [cobra.RunE cobra.orgFlag].
  rewrite listRun_calls_accessor by exact Hc. cbn [OrgName].
  destruct g as [| |v]; cbn.
  - tauto.
  - tauto.
  - split.
    + intros [-> | ->]; auto.
    + intros [E|[E|[E|E]]]; try discriminate; injection E as ->; auto.
Qed.

(** X17: the value the flag takes when given bare is the shorthand that
    [listRun] resolves: [list --org] in a repository with a non-empty
    owner sends the GET of [orgs/{owner}/actions/secrets] to the
    repository's host. *)
Theorem X17_bare_flag_lists_owner_organization f c repo :
  cmdutil.HttpClient f tt = Ok c ->
  cmdutil.BaseRepo f tt = Ok repo ->
  ghrepo.RepoOwner repo <> "" ->
  requests (trace (cobra.Execute (NewCmdList f None) cobra.Bare)) =
    [(ghrepo.RepoHost repo, "GET",
      "orgs/" ++ ghrepo.RepoOwner repo ++ "/actions/secrets")].
Proof.
  intros Hc Hr Hne. unfold cobra.Execute, NewCmdList. cbn [cobra.RunE cobra.orgFlag cobra.stored cobra.NoOptDefVal].
  match goal with |- requests (trace (listRun ?o)) = _ => set (opts := o) end.
  destruct (listRun_requests opts)
    as [[_ [[err Hc']|[err [Hr' _]]]] | (c' & before & host & path & _ & Hs & ->)].
  - cbn in Hc'. rewrite Hc in Hc'. discriminate.
  - cbn in Hr'. rewrite Hr in Hr'. discriminate.
  - now destruct (scope_owner opts repo _ _ _ eq_refl Hr Hne Hs) as (_ & -> & ->).
Qed.

(** X18: outside a repository the command fails before any request when
    [--org] is left out or given bare, and still sends its request to the
    default host when [--org] names an organization. *)
Theorem X18_command_outside_repository f c err name :
  cmdutil.HttpClient f tt = Ok c ->
  cmdutil.BaseRepo f tt = Err err ->
  name <> "" -> name <> "@owner" ->
  let failed := ([CallHttpClient; CallBaseRepo],
                 Returned (Some (fmt.Errorf "could not determine base repo: %w" err))) in
  cobra.Execute (NewCmdList f None) cobra.Omitted = failed /\
  cobra.Execute (NewCmdList f None) cobra.Bare = failed /\
  requests (trace (cobra.Execute (NewCmdList f None) (cobra.Valued name))) =
    [(OverridableDefault, "GET", "orgs/" ++ name ++ "/actions/secrets")].
Proof.
  intros Hc Hr Hne Hno failed. subst failed.
  unfold cobra.Execute, NewCmdList.
  cbn [cobra.RunE cobra.orgFlag cobra.stored cobra.NoOptDefVal cobra.flagDefault].
  split; [|split].
  - unfold listRun, listRunBody. cbn [HttpClient IO BaseRepo OrgName].
    rewrite Hc, Hr. run_body. reflexivity.
  - unfold listRun, listRunBody. cbn [HttpClient IO BaseRepo OrgName].
    rewrite Hc, Hr. run_body. reflexivity.
  - match goal with |- requests (trace (listRun ?o)) = _ => set (opts := o) end.
    destruct (listRun_requests opts)
      as [[_ [[err' Hc']|[err' [_ [Ho|Ho]]]]] | (c' & before & host & path & _ & Hs & ->)].
    + cbn in Hc'. rewrite Hc in Hc'. discriminate.
    + now contradiction Hne.
    + now contradiction Hno.
    + now destruct (scope_literal opts _ _ _ Hne Hno Hs) as (_ & -> & ->).
Qed.

End Command.

(** X19: what is requested does not depend on the output side: with other
    streams the run makes the same calls up to the rendering, so the same
    request, and a fetch failure gives the same result. *)
Theorem X19_request_independent_of_streams `{Platform} io opts :
  requests (trace (listRun (withIO io opts))) = requests (trace (listRun opts)) /\
  (rendered (trace (listRun opts)) = [] ->
   listRun (withIO io opts) = listRun opts).
Proof.
  unfold listRun, listRunBody, withIO. cbn [HttpClient IO BaseRepo OrgName].
  destruct (HttpClient opts tt) as [c|err]; [|now cbn].
  destruct (OrgName opts =? "") eqn:Hempty, (OrgName opts =? "@owner") eqn:Howner;
    destruct (BaseRepo opts tt) as [repo|err];
    run_body; auto;
    try (destruct (ghrepo.RepoOwner repo =? "") eqn:Hno; run_body);
    rewrite ?Hempty; run_body;
    match goal with
    | |- context [http.Do ?c ?h "GET" ?p] =>
      destruct (http.Do c h "GET" p) as [payload|err']; run_body; auto
    end;
    rewrite !Render_run; cbn -[renderedTable];
    repeat match goal with
    | |- context [iostreams.writeOut ?i ?t] =>
      destruct (iostreams.writeOut i t); cbn -[renderedTable]
    end;
    (split; [reflexivity | discriminate]).
Qed.

(** * The further properties at concrete inputs *)

Lemma X2_client_failure_calls_nothing_else_witness :
  HttpClient noClientOpts tt = Err noToken /\
  @listRun github noClientOpts =
    ([CallHttpClient],
     Returned (Some (fmt.Errorf "could not create http client: %w" noToken))).
Proof.
  split; [reflexivity|].
  exact (@X2_client_failure_calls_nothing_else github noClientOpts noToken eq_refl).
Defined.

Lemma X3_resolution_failure_sends_nothing_witness :
  HttpClient (outsideOpts "") tt = Ok (respond sampleSecrets) /\
  (OrgName (outsideOpts "") = "" \/ OrgName (outsideOpts "") = "@owner") /\
  BaseRepo (outsideOpts "") tt = Err (errorString "not a git repository") /\
  @listRun github (outsideOpts "") =
    ([CallHttpClient; CallBaseRepo],
     Returned (Some (fmt.Errorf "could not determine base repo: %w"
                       (errorString "not a git repository")))).
Proof.
  split; [reflexivity|]. split; [now left|]. split; [reflexivity|].
  exact (@X3_resolution_failure_sends_nothing github (outsideOpts "")
           (respond sampleSecrets) _ eq_refl (or_introl eq_refl) eq_refl).
Defined.

Lemma X4_accessor_called_iff_needed_witness :
  HttpClient (sampleOpts tty "@owner") tt = Ok (respond sampleSecrets) /\
  In CallBaseRepo (trace (@listRun github (sampleOpts tty "@owner"))).
Proof.
  split; [reflexivity|].
  apply (proj2 (@X4_accessor_called_iff_needed github (sampleOpts tty "@owner")
                  (respond sampleSecrets) eq_refl)).
  now right.
Defined.

Lemma X5_one_get_of_a_secrets_path_witness :
  In (CallREST "github.com" "GET" "orgs/acme/actions/secrets")
     (trace (@listRun github (sampleOpts piped "acme"))) /\
  requests (trace (@listRun github (sampleOpts piped "acme"))) =
    [("github.com", "GET", "orgs/acme/actions/secrets")].
Proof.
  assert (Hin : In (CallREST "github.com" "GET" "orgs/acme/actions/secrets")
                   (trace (@listRun github (sampleOpts piped "acme")))).
  { vm_compute. auto. }
  split; [exact Hin|].
  exact (proj1 (@X5_one_get_of_a_secrets_path github (sampleOpts piped "acme") _ _ _ Hin)).
Defined.

Lemma X7_empty_owner_lists_repository_witness :
  OrgName ownerlessOpts = "@owner" /\
  BaseRepo ownerlessOpts tt = Ok ownerlessRepo /\
  ghrepo.RepoOwner ownerlessRepo = "" /\
  @listRun github ownerlessOpts = @listRun github (withOrgName "" ownerlessOpts).
Proof.
  split; [reflexivity|]. split; [reflexivity|]. split; [reflexivity|].
  exact (@X7_empty_owner_lists_repository github ownerlessOpts ownerlessRepo
           eq_refl eq_refl eq_refl).
Defined.

Lemma X8_owner_shorthand_as_literal_witness :
  OrgName dotcomOpts = "@owner" /\
  BaseRepo dotcomOpts tt = Ok dotcomRepo /\
  ghrepo.RepoOwner dotcomRepo <> "" /\
  ghrepo.RepoOwner dotcomRepo <> "@owner" /\
  ghrepo.RepoHost dotcomRepo = @OverridableDefault github /\
  requests (trace (@listRun github dotcomOpts)) =
    requests (trace (@listRun github (withOrgName "ScapyArtGroup" dotcomOpts))).
Proof.
  assert (Hne : ghrepo.RepoOwner dotcomRepo <> "") by (cbn; discriminate).
  assert (Hno : ghrepo.RepoOwner dotcomRepo <> "@owner") by (cbn; discriminate).
  split; [reflexivity|]. split; [reflexivity|]. split; [exact Hne|].
  split; [exact Hno|]. split; [reflexivity|].
  exact (proj1 (@X8_owner_shorthand_as_literal github dotcomOpts dotcomRepo
                  eq_refl eq_refl Hne Hno eq_refl)).
Defined.

Lemma X9_default_host_unused_for_repository_witness :
  (OrgName (sampleOpts piped "") = "" \/ OrgName (sampleOpts piped "") = "@owner") /\
  @listRun {| OverridableDefault := "github.com"; mapUnicodeToUpper := fun s => s |}
           (sampleOpts piped "") =
  @listRun {| OverridableDefault := "ghe.example.com"; mapUnicodeToUpper := fun s => s |}
           (sampleOpts piped "").
Proof.
  split; [now left|].
  exact (X9_default_host_unused_for_repository "github.com" "ghe.example.com"
           (fun s => s) (sampleOpts piped "") (or_introl eq_refl)).
Defined.

Lemma X11_terminal_and_piped_rows_agree_witness :
  iostreams.IsStdoutTTY tty = true /\
  iostreams.IsStdoutTTY piped = false /\
  nth_error (@renderedTable github piped sampleSecrets) 0 =
    Some ["TOKEN"; "2024-01-15"; "ALL"] /\
  exists rowT,
    nth_error (@renderedTable github tty sampleSecrets) 0 = Some rowT /\
    length rowT = 3 /\
    nth_error rowT 1 = Some "Updated 2024-01-15".
Proof.
  split; [reflexivity|]. split; [reflexivity|]. split; [reflexivity|].
  destruct (@X11_terminal_and_piped_rows_agree github tty piped sampleSecrets 0
              ["TOKEN"; "2024-01-15"; "ALL"] eq_refl eq_refl eq_refl)
    as (rowT & Hrow & Hlen & _ & Hdate).
  exists rowT. split; [exact Hrow|]. split; [exact Hlen|].
  exact (Hdate "2024-01-15" eq_refl).
Defined.

Lemma X13_date_text_is_injective_witness :
  validDate (date 2024 1 15) /\
  time.Format (date 2024 1 15) "2006-01-02" =
    time.Format (UpdatedAt token) "2006-01-02" /\
  date 2024 1 15 = UpdatedAt token.
Proof.
  assert (Hvalid : validDate (date 2024 1 15)) by (unfold validDate; cbn; lia).
  split; [exact Hvalid|]. split; [reflexivity|].
  exact (X13_date_text_is_injective (date 2024 1 15) (UpdatedAt token)
           Hvalid Hvalid eq_refl).
Defined.

Lemma X14_piped_visibility_is_upper_case_witness :
  iostreams.IsStdoutTTY piped = false /\
  nth_error sampleSecrets 2 = Some apiKey /\
  Visibility apiKey <> "" /\
  strings.isASCII (Visibility apiKey) = true /\
  exists name updated col,
    nth_error (@renderedTable github piped sampleSecrets) 2 = Some [name; updated; col] /\
    col <> "" /\
    String.length col = String.length (Visibility apiKey) /\
    strings.hasLower col = false /\
    @strings.ToUpper github col = col.
Proof.
  assert (Hvis : Visibility apiKey <> "") by (cbn; discriminate).
  split; [reflexivity|]. split; [reflexivity|]. split; [exact Hvis|].
  split; [reflexivity|].
  exact (@X14_piped_visibility_is_upper_case github piped sampleSecrets 2 apiKey
           eq_refl eq_refl Hvis eq_refl).
Defined.

Lemma X16_command_resolves_repository_iff_witness :
  cmdutil.HttpClient sampleFactory tt = Ok (respond sampleSecrets) /\
  In CallBaseRepo (trace (cobra.Execute (@NewCmdList github sampleFactory None) cobra.Bare)) /\
  ~ In CallBaseRepo
      (trace (cobra.Execute (@NewCmdList github sampleFactory None) (cobra.Valued "acme"))).
Proof.
  split; [reflexivity|]. split.
  - apply (proj2 (@X16_command_resolves_repository_iff github sampleFactory cobra.Bare
                    (respond sampleSecrets) eq_refl)).
    auto.
  - intros Hin.
    apply (proj1 (@X16_command_resolves_repository_iff github sampleFactory
                    (cobra.Valued "acme") (respond sampleSecrets) eq_refl)) in Hin.
    destruct Hin as [E|[E|[E|E]]]; discriminate.
Defined.

Lemma X17_bare_flag_lists_owner_organization_witness :
  cmdutil.HttpClient sampleFactory tt = Ok (respond sampleSecrets) /\
  cmdutil.BaseRepo sampleFactory tt = Ok sampleRepo /\
  ghrepo.RepoOwner sampleRepo <> "" /\
  requests (trace (cobra.Execute (@NewCmdList github sampleFactory None) cobra.Bare)) =
    [("ghe.example.com", "GET", "orgs/ScapyArtGroup/actions/secrets")].
Proof.
  assert (Hne : ghrepo.RepoOwner sampleRepo <> "") by (cbn; discriminate).
  split; [reflexivity|]. split; [reflexivity|]. split; [exact Hne|].
  exact (@X17_bare_flag_lists_owner_organization github sampleFactory
           (respond sampleSecrets) sampleRepo eq_refl eq_refl Hne).
Defined.

Lemma X18_command_outside_repository_witness :
  cmdutil.HttpClient outsideFactory tt = Ok (respond sampleSecrets) /\
  cmdutil.BaseRepo outsideFactory tt = Err (errorString "not a git repository") /\
  "acme" <> "" /\ "acme" <> "@owner" /\
  requests (trace (cobra.Execute (@NewCmdList github outsideFactory None)
                     (cobra.Valued "acme"))) =
    [("github.com", "GET", "orgs/acme/actions/secrets")].
Proof.
  assert (Hne : "acme" <> "") by discriminate.
  assert (Hno : "acme" <> "@owner") by discriminate.
  split; [reflexivity|]. split; [reflexivity|]. split; [exact Hne|]. split; [exact Hno|].
  exact (proj2 (proj2 (@X18_command_outside_repository github outsideFactory
                         (respond sampleSecrets) _ "acme" eq_refl eq_refl Hne Hno))).
Defined.
